(** * Prompt library (pb4.py): element store, prompt history and prompt assembler

    A shallow embedding of the record store and of the string assembly of
    [src/pb4.py], with the properties the specification states about them.

    Modelling conventions.
    - A Python [str] is a [string] of characters below code point 128; the
      helpers of module [Py] follow CPython on that range.
    - A pandas data frame with the columns [title, type, content] whose cells
      are all text is a list of [Element] records in row order. A frame as
      [pd.read_csv] types it, with missing values and numbers among its
      cells, is a list of [Row] records of [Cell]s.
    - An operation takes the frame that [DataManager.load_data] returned and
      gives the message shown to the user together with the frame left on
      disk.
    - A [dict] iterated with [.items()] is an association list in insertion
      order. *)

From Stdlib Require Import String Ascii ZArith Bool Lia.
From stdpp Require Import base list strings.

Open Scope string_scope.
Open Scope list_scope.

#[global] Arguments String.eqb : simpl never.

(** ** Python string primitives *)

Module Py.

(** The one-character string "\n". *)
Definition LF : string := String "010"%char EmptyString.

(** Truth value of a [str]: only the empty string is false. *)
Definition truthy (s : string) : bool :=
  match s with
  | EmptyString => false
  | String _ _ => true
  end.

(** Truth value of an [Optional[str]]: [None] and the empty string are false. *)
Definition truthy_opt (o : option string) : bool :=
  match o with
  | None => false
  | Some s => truthy s
  end.

(** [sep.join(ls)] *)
Definition join (sep : string) (ls : list string) : string :=
  String.concat sep ls.

(** [c.isspace()] on code points below 128: TAB, LF, VT, FF, CR, the four
    separators FS, GS, RS, US, and the blank. *)
Definition isspace (c : ascii) : bool :=
  let n := nat_of_ascii c in
  (Nat.leb 9 n && Nat.leb n 13) || (Nat.leb 28 n && Nat.leb n 32).

Fixpoint lstrip (s : string) : string :=
  match s with
  | EmptyString => EmptyString
  | String c s' => if isspace c then lstrip s' else s
  end.

Fixpoint rstrip (s : string) : string :=
  match s with
  | EmptyString => EmptyString
  | String c s' =>
      match rstrip s' with
      | EmptyString => if isspace c then EmptyString else String c EmptyString
      | r => String c r
      end
  end.

(** [s.strip()] *)
Definition strip (s : string) : string := rstrip (lstrip s).

Definition islower (c : ascii) : bool :=
  let n := nat_of_ascii c in Nat.leb 97 n && Nat.leb n 122.

Definition isupper (c : ascii) : bool :=
  let n := nat_of_ascii c in Nat.leb 65 n && Nat.leb n 90.

Definition upper (c : ascii) : ascii :=
  if islower c then ascii_of_nat (nat_of_ascii c - 32) else c.

Definition lower (c : ascii) : ascii :=
  if isupper c then ascii_of_nat (nat_of_ascii c + 32) else c.

(** [s.title()]: a cased character is upper-cased when the character before
    it is not cased, lower-cased otherwise. *)
Fixpoint title_from (previous_is_cased : bool) (s : string) : string :=
  match s with
  | EmptyString => EmptyString
  | String c s' =>
      if islower c then
        String (if previous_is_cased then c else upper c) (title_from true s')
      else if isupper c then
        String (if previous_is_cased then lower c else c) (title_from true s')
      else String c (title_from false s')
  end.

Definition title (s : string) : string := title_from false s.

(** [s.lower()] *)
Fixpoint str_lower (s : string) : string :=
  match s with
  | EmptyString => EmptyString
  | String c s' => String (lower c) (str_lower s')
  end.

End Py.

(** ** Constants *)

Definition ELEMENT_TYPES : list string :=
  ["role"; "goal"; "audience"; "context"; "output"; "tone"].

Definition CSV_COLUMNS : list string := ["title"; "type"; "content"].

(** ** Data model *)

(** A row of prompt_elements.csv. *)
Record Element := mkElement {
  title : string;
  type : string;
  content : string
}.

Definition Table := list Element.

(** [df['title'] == title], row by row. *)
Definition title_is (t : string) (e : Element) : bool := title e =? t.

(** The value of a selection widget: [st.selectbox] returns one option,
    [st.multiselect] returns a list of options. *)
Inductive Selected :=
| SelStr (s : string)
| SelList (l : list string).

(** The entries of the dictionary built by [_create_section] that
    [_generate_prompt] reads: ['selected'] and ['custom']. *)
Record SectionData := mkData {
  selected : Selected;
  custom : string
}.

(** ** PromptBuilder *)

Module PromptBuilder.

(** [_create_section]: the widget values are inputs. The free text is asked
    for only when "Write your own" is chosen, and is stored stripped. *)
Definition _create_section (multi_select : bool) (chosen : Selected)
    (custom_widget : string) : SectionData :=
  let wants_custom :=
    match multi_select, chosen with
    | true, SelList l => existsb (String.eqb "Write your own") l
    | false, SelStr s => s =? "Write your own"
    | _, _ => false
    end in
  let custom_content := if wants_custom then custom_widget else EmptyString in
  {| selected := chosen; custom := Py.strip custom_content |}.

(** [get_content_by_title]: the content of the first row with that title. *)
Definition get_content_by_title (df : Table) (t : string) : option string :=
  match List.filter (title_is t) df with
  | [] => None
  | e :: _ => Some (content e)
  end.

(** The skip test at the head of the loop body. *)
Definition is_skip (sel : Selected) : bool :=
  match sel with
  | SelList l =>
      match l with
      | [] => true
      | _ :: _ => forallb (String.eqb "Skip") l
      end
  | SelStr s => s =? "Skip"
  end.

Definition section_title (section : string) : string :=
  if section =? "audience" then "Target Audience" else Py.title section.

Definition is_multi (section : string) : bool :=
  existsb (String.eqb section) ["audience"; "context"; "output"].

(** One turn of [for item in sel]. *)
Definition add_item (df : Table) (parts : list string) (item : string)
    : list string :=
  if (item =? "Skip") || (item =? "Write your own") then parts
  else
    let c := get_content_by_title df item in
    if Py.truthy_opt c then parts ++ [default EmptyString c] else parts.

(** The body of [for section, data in selections.items()], as a function
    on the list [prompt_parts]. *)
Definition process_section (df : Table) (prompt_parts : list string)
    (section : string) (data : SectionData) : list string :=
  let sel := selected data in
  if is_skip sel then prompt_parts
  else
    let section_title := section_title section in
    if is_multi section then
      let parts :=
        match sel with
        | SelList l => fold_left (add_item df) l []
        | SelStr _ => []
        end in
      let parts :=
        if Py.truthy (custom data) then parts ++ [custom data] else parts in
      let content := Py.join Py.LF (List.filter Py.truthy parts) in
      if Py.truthy content
      then prompt_parts ++ [section_title +:+ ":" +:+ Py.LF +:+ content]
      else prompt_parts
    else
      let content :=
        match sel with
        | SelStr s =>
            if s =? "Write your own" then Some (custom data)
            else get_content_by_title df s
        | SelList _ => get_content_by_title df EmptyString
        end in
      if Py.truthy_opt content
      then prompt_parts ++ [section_title +:+ ": " +:+ default EmptyString content]
      else prompt_parts.

Definition RECURSIVE_FEEDBACK : string :=
  Py.LF +:+ Py.LF +:+
  "Before you provide the response, ask any clarifying questions that " +:+
  "would improve the output. If you already have enough info, proceed.".

Definition _generate_prompt (selections : list (string * SectionData))
    (df : Table) (recursive_feedback : bool) : string :=
  let prompt_parts :=
    fold_left (fun pp sd => process_section df pp (fst sd) (snd sd))
              selections [] in
  let prompt := Py.join (Py.LF +:+ Py.LF) prompt_parts in
  if recursive_feedback then prompt +:+ RECURSIVE_FEEDBACK else prompt.

(** The dictionary [selections] as [render] fills it. *)
Definition render_selections (role goal audience context output tone : SectionData)
    : list (string * SectionData) :=
  [("role", role); ("goal", goal); ("audience", audience);
   ("context", context); ("output", output); ("tone", tone)].

End PromptBuilder.

(** ** DataManager and the element store *)

(** [_safe_concat]: [pd.concat([df, new_row], ignore_index=True)]. *)
Definition _safe_concat {A} (df new_row : list A) : list A := df ++ new_row.

(** The uniqueness invariant of the data model: no two rows share both
    title and type. *)
Definition unique_title_type (df : Table) : Prop :=
  forall (i j : nat) (ei ej : Element),
    df !! i = Some ei -> df !! j = Some ej ->
    title ei = title ej -> type ei = type ej -> i = j.

Module ElementCreator.

Inductive Message :=
| TitleRequired        (* st.error("Title is required.") *)
| ContentRequired      (* st.error("Content is required.") *)
| AlreadyExists        (* st.warning("An element with this title and type already exists.") *)
| Added.               (* st.success("Element added successfully!") *)

(** [((df['title'] == title) & (df['type'] == element_type)).any()] *)
Definition already_exists (df : Table) (title_in element_type : string) : bool :=
  existsb (fun e => (title e =? title_in) && (type e =? element_type)) df.

(** [render], when the "Add Element" button is pressed: [store] is the
    content of prompt_elements.csv, the result is the message and the
    content of the file afterwards. *)
Definition render (store : Table) (element_type title_in content_in : string)
    : Message * Table :=
  if negb (Py.truthy (Py.strip title_in)) then (TitleRequired, store)
  else if negb (Py.truthy (Py.strip content_in)) then (ContentRequired, store)
  else
    let df := store in
    if already_exists df title_in element_type then (AlreadyExists, store)
    else
      let new_row :=
        [mkElement (Py.strip title_in) element_type (Py.strip content_in)] in
      let df := _safe_concat df new_row in
      (Added, df).

End ElementCreator.

Module ElementEditor.

Inductive Message :=
| TitleEmpty           (* st.error("Title cannot be empty.") *)
| ContentEmpty         (* st.error("Content cannot be empty.") *)
| Updated.             (* st.success("Updated successfully!") *)

(** The three assignments [df.at[orig_index, col] = value]. [render] passes
    the label of a row of [df]; on a label that is not in the index pandas
    enlarges the frame by that row. *)
Definition set_row (df : Table) (orig_index : nat) (e : Element) : Table :=
  if Nat.ltb orig_index (length df) then <[orig_index := e]> df
  else df ++ [e].

(** [_render_element], when the "Update" button of row [orig_index] is
    pressed. *)
Definition _render_element (df : Table) (orig_index : nat)
    (new_title new_type new_content : string) : Message * Table :=
  if negb (Py.truthy (Py.strip new_title)) then (TitleEmpty, df)
  else if negb (Py.truthy (Py.strip new_content)) then (ContentEmpty, df)
  else
    (Updated,
     set_row df orig_index
       (mkElement (Py.strip new_title) new_type (Py.strip new_content))).

Inductive DeleteMessage :=
| Deleted              (* st.success("Deleted successfully!") *)
| KeyError.            (* df.drop raises: the label is not in the index *)

(** [_render_element], when the "Delete" button of row [orig_index] is
    pressed: [df.drop(index=orig_index).reset_index(drop=True)]. *)
Definition _render_element_delete (df : Table) (orig_index : nat)
    : DeleteMessage * Table :=
  if Nat.ltb orig_index (length df) then (Deleted, delete orig_index df)
  else (KeyError, df).

(** Order of the pairs (type, title), as [sort_values(by=['type', 'title'])]
    compares rows. *)
Definition row_le (a b : Element) : bool :=
  match String.compare (type a) (type b) with
  | Lt => true
  | Gt => false
  | Eq => match String.compare (title a) (title b) with
          | Gt => false
          | _ => true
          end
  end.

Fixpoint insert_row (r : nat * Element) (sorted : list (nat * Element))
    : list (nat * Element) :=
  match sorted with
  | [] => [r]
  | r' :: rest =>
      if row_le (snd r) (snd r') then r :: sorted
      else r' :: insert_row r rest
  end.

(** [filtered_df.sort_values(by=['type', 'title']).reset_index()]: the rows
    in increasing order, each with the label it had in [df]. *)
Definition sort_by_type_title (l : list (nat * Element)) : list (nat * Element) :=
  fold_right insert_row [] l.

(** The mask of [render]. [contains haystack pattern] stands for pandas'
    [Series.str.contains], a regular-expression search. *)
Definition mask (contains : string -> string -> bool)
    (selected_type q : string) (e : Element) : bool :=
  (if negb (selected_type =? "All") then type e =? selected_type else true)
  && (if Py.truthy (Py.strip q) then
        let ql := Py.str_lower q in
        contains (Py.str_lower (title e)) ql
        || contains (Py.str_lower (content e)) ql
      else true).

(** [render]: the rows for which an expander is drawn, in display order,
    each with the [orig_index] passed to [_render_element]. An empty table
    and an empty filter result draw a warning and no expander. *)
Definition render (contains : string -> string -> bool) (df : Table)
    (selected_type q : string) : list (nat * Element) :=
  let filtered_df :=
    List.filter (fun ie => mask contains selected_type q (snd ie))
                (imap (fun i e => (i, e)) df) in
  sort_by_type_title filtered_df.

End ElementEditor.

(** A data frame as [pd.read_csv] returns it for an uploaded file: the header
    and the rows of cells. *)
Record DataFrame := mkFrame {
  columns : list string;
  rows : list (list string)
}.

Module SidebarTools.

Inductive Message :=
| UploadFailed         (* st.sidebar.error(f"Upload failed: {e}") *)
| MustHaveColumns      (* st.sidebar.error(f"CSV must have columns: {CSV_COLUMNS}") *)
| UploadedAndSaved.    (* st.sidebar.success("Elements uploaded and saved.") *)

(** [c in new_df.columns] *)
Definition has_column (new_df : DataFrame) (c : string) : bool :=
  existsb (String.eqb c) (columns new_df).

Fixpoint index_of (c : string) (cols : list string) : option nat :=
  match cols with
  | [] => None
  | c' :: cols' => if c' =? c then Some 0 else S <$> index_of c cols'
  end.

(** The cell of [row] under the column named [c]. *)
Definition cell (cols : list string) (row : list string) (c : string) : string :=
  match index_of c cols with
  | Some i => default EmptyString (row !! i)
  | None => EmptyString
  end.

(** [new_df[CSV_COLUMNS]]: the three columns, in canonical order. *)
Definition select_csv_columns (new_df : DataFrame) : Table :=
  map (fun row =>
         mkElement (cell (columns new_df) row "title")
                   (cell (columns new_df) row "type")
                   (cell (columns new_df) row "content"))
      (rows new_df).

(** [render], when a file has been uploaded; [None] stands for a file that
    [pd.read_csv] rejects. *)
Definition render (store : Table) (uploaded : option DataFrame)
    : Message * Table :=
  match uploaded with
  | None => (UploadFailed, store)
  | Some new_df =>
      if negb (forallb (has_column new_df) CSV_COLUMNS)
      then (MustHaveColumns, store)
      else (UploadedAndSaved, select_csv_columns new_df)
  end.

End SidebarTools.

(** ** CSV files

    The file at the path is given by the frame that [pd.read_csv] returns
    for it at this call, [None] when no file exists; the file left at the
    path is given by the frame written with [df.to_csv(path, index=False)].
    A later read of that file types its cells anew: an empty cell is read as
    a missing value. *)

(** [df[c] = v]: the column is overwritten when it exists and appended
    otherwise. *)
Definition set_column (df : DataFrame) (c v : string) : DataFrame :=
  match SidebarTools.index_of c (columns df) with
  | Some i => mkFrame (columns df) (map (fun row => <[i := v]> row) (rows df))
  | None => mkFrame (columns df ++ [c]) (map (fun row => row ++ [v]) (rows df))
  end.

(** [df[cols]]: the listed columns, in the listed order. *)
Definition select_columns (df : DataFrame) (cols : list string) : DataFrame :=
  mkFrame cols
          (map (fun row => map (SidebarTools.cell (columns df) row) cols) (rows df)).

(** [_ensure_csv]: the frame returned and the file left at the path. *)
Definition _ensure_csv (file : option DataFrame) (cols : list string)
    : DataFrame * option DataFrame :=
  match file with
  | None =>
      let df := mkFrame cols [] in
      (df, Some df)
  | Some df =>
      let missing :=
        List.filter (fun c => negb (SidebarTools.has_column df c)) cols in
      match missing with
      | [] => (df, Some df)
      | _ :: _ =>
          let df := fold_left (fun d c => set_column d c EmptyString) missing df in
          let df := select_columns df cols in
          (df, Some df)
      end
  end.

(** Every row has one cell per column. *)
Definition rectangular (df : DataFrame) : Prop :=
  Forall (fun row => length row = length (columns df)) (rows df).

(** ** Prompt history *)

(** A row of prompt_history.csv. *)
Record PromptRecord := mkRecord {
  name : string;
  timestamp : string;
  prompt : string
}.

(** *** Timestamps

    [datetime.now(tz=TZ).isoformat()] reads the system clock. The clock
    reading is an input: the number of microseconds since 1970-01-01T00:00:00Z.
    A time zone is the map from a UTC second to the UTC offset, in seconds,
    that the zone observes at that second. *)

Module Datetime.

Local Open Scope Z_scope.

Record datetime := mkDatetime {
  year : Z; month : Z; day : Z;
  hour : Z; minute : Z; second : Z; microsecond : Z;
  utcoffset : Z
}.

(** Day number (days since 1970-01-01) of a date of the proleptic Gregorian
    calendar. *)
Definition days_from_civil (y m d : Z) : Z :=
  let y := if m <=? 2 then y - 1 else y in
  let era := y / 400 in
  let yoe := y - era * 400 in
  let doy := (153 * (if 2 <? m then m - 3 else m + 9) + 2) / 5 + d - 1 in
  let doe := yoe * 365 + yoe / 4 - yoe / 100 + doy in
  era * 146097 + doe - 719468.

(** The date of a day number. *)
Definition civil_from_days (z : Z) : Z * Z * Z :=
  let z := z + 719468 in
  let era := z / 146097 in
  let doe := z - era * 146097 in
  let yoe := (doe - doe / 1460 + doe / 36524 - doe / 146096) / 365 in
  let y := yoe + era * 400 in
  let doy := doe - (365 * yoe + yoe / 4 - yoe / 100) in
  let mp := (5 * doy + 2) / 153 in
  let d := doy - (153 * mp + 2) / 5 + 1 in
  let m := if mp <? 10 then mp + 3 else mp - 9 in
  (if m <=? 2 then y + 1 else y, m, d).

(** [datetime.now(tz)]: the wall clock of the zone at the clock reading. *)
Definition now (tz : Z -> Z) (clock : Z) : datetime :=
  let utc := clock / 1000000 in
  let off := tz utc in
  let wall := utc + off in
  let '(y, m, d) := civil_from_days (wall / 86400) in
  let sod := wall mod 86400 in
  {| year := y; month := m; day := d;
     hour := sod / 3600; minute := (sod mod 3600) / 60; second := sod mod 60;
     microsecond := clock mod 1000000;
     utcoffset := off |}.

Definition digit (n : Z) : ascii := ascii_of_nat (48 + Z.to_nat n).

(** ["%0<width>d" % n] for [0 <= n < 10 ^ width]. *)
Fixpoint zfill (width : nat) (n : Z) : string :=
  match width with
  | O => EmptyString
  | S w => zfill w (n / 10) +:+ String (digit (n mod 10)) EmptyString
  end.

(** The offset as isoformat prints it: sign, hours and minutes, and the
    seconds when there are any. *)
Definition format_offset (off : Z) : string :=
  let a := Z.abs off in
  (if off <? 0 then "-" else "+") +:+ zfill 2 (a / 3600) +:+ ":" +:+
  zfill 2 ((a mod 3600) / 60) +:+
  (if a mod 60 =? 0 then EmptyString else ":" +:+ zfill 2 (a mod 60)).

(** [dt.isoformat()]: the fraction is printed only when it is not zero. *)
Definition isoformat (dt : datetime) : string :=
  zfill 4 (year dt) +:+ "-" +:+ zfill 2 (month dt) +:+ "-" +:+
  zfill 2 (day dt) +:+ "T" +:+ zfill 2 (hour dt) +:+ ":" +:+
  zfill 2 (minute dt) +:+ ":" +:+ zfill 2 (second dt) +:+
  (if microsecond dt =? 0 then EmptyString else "." +:+ zfill 6 (microsecond dt)) +:+
  format_offset (utcoffset dt).

(** Day of the week of a day number, Monday = 0 (1970-01-01 is a Thursday). *)
Definition weekday (z : Z) : Z := (z + 3) mod 7.

(** Day number of the first Sunday of month [m] of year [y]. *)
Definition first_sunday (y m : Z) : Z :=
  let d1 := days_from_civil y m 1 in
  d1 + (6 - weekday d1) mod 7.

(** [ZoneInfo("America/Denver")] under the rule of the tz database in force
    since 2007: Mountain Daylight Time (UTC-6) from the second Sunday of
    March, 02:00 MST, to the first Sunday of November, 02:00 MDT; Mountain
    Standard Time (UTC-7) otherwise. The zone had other rules before
    2007-03-11; [datetime.now] gives no reading that old. *)
Definition America_Denver (utc : Z) : Z :=
  let '(y, _, _) := civil_from_days (utc / 86400) in
  let dst_start := (first_sunday y 3 + 7) * 86400 + 9 * 3600 in
  let dst_end := first_sunday y 11 * 86400 + 8 * 3600 in
  if (dst_start <=? utc) && (utc <? dst_end) then - (6 * 3600) else - (7 * 3600).

End Datetime.

(** [TZ = ZoneInfo("America/Denver")] *)
Definition TZ : Z -> Z := Datetime.America_Denver.

(** [_iso_now], at the clock reading [clock]. *)
Definition _iso_now (clock : Z) : string :=
  Datetime.isoformat (Datetime.now TZ clock).

Module DataManager.

(** [save_prompt], at the clock reading [clock]: [store] is the content of
    prompt_history.csv, the result is its content afterwards. *)
Definition save_prompt (clock : Z) (store : list PromptRecord)
    (name prompt : string) : list PromptRecord :=
  let df := store in
  let new_row := [mkRecord name (_iso_now clock) prompt] in
  _safe_concat df new_row.

End DataManager.

Module PromptSaver.

Inductive Message :=
| Saved                (* st.success("Prompt saved successfully!") *)
| NameAndPromptNeeded. (* st.error("Please provide both a name and non-empty prompt.") *)

(** [PromptBuilder._display_prompt], when the "Save Prompt" button is
    pressed at the clock reading [clock]. *)
Definition _display_prompt (clock : Z) (store : list PromptRecord)
    (prompt prompt_name : string) : Message * list PromptRecord :=
  if Py.truthy prompt_name && Py.truthy (Py.strip prompt)
  then (Saved,
        DataManager.save_prompt clock store (Py.strip prompt_name) (Py.strip prompt))
  else (NameAndPromptNeeded, store).

End PromptSaver.

Module PromptBrowser.

(** Order of Python strings: by code point, the shorter string first when
    it is a prefix of the longer one. *)
Definition str_lt (a b : string) : bool :=
  match String.compare a b with
  | Lt => true
  | _ => false
  end.

(** [df.sort_values(by="timestamp", ascending=False)]: the rows by
    decreasing timestamp string, rows with equal timestamps in file order. *)
Fixpoint insert_desc (r : PromptRecord) (sorted : list PromptRecord)
    : list PromptRecord :=
  match sorted with
  | [] => [r]
  | r' :: rest =>
      if str_lt (timestamp r) (timestamp r') then r' :: insert_desc r rest
      else r :: sorted
  end.

Definition sort_values_desc (df : list PromptRecord) : list PromptRecord :=
  fold_right insert_desc [] df.

(** [render], up to the search box: the history, newest first as the source
    intends. *)
Definition render (store : list PromptRecord) : list PromptRecord :=
  sort_values_desc store.

(** [render] with the search box: the rows shown for the query [q].
    [contains] stands for pandas' [Series.str.contains]. *)
Definition render_search (contains : string -> string -> bool)
    (store : list PromptRecord) (q : string) : list PromptRecord :=
  let df := sort_values_desc store in
  if Py.truthy (Py.strip q) then
    let ql := Py.str_lower q in
    List.filter (fun r => contains (Py.str_lower (prompt r)) ql
                          || contains (Py.str_lower (name r)) ql) df
  else df.

End PromptBrowser.

(** ** Frames as pandas loads them

    [pd.read_csv] types what it reads: a cell of a text column is a Python
    [str]; an empty cell, or one of the spellings of a missing value such as
    NA, is the float NaN; the cells of a column that parses as numbers or as
    booleans are numbers or booleans. The definitions above are the code on
    frames whose cells are all text. The definitions below are the same code
    on any loaded frame, for the lines that look at a cell: the comparison
    [df['title'] == title], the conversion [str(...)] and the text that
    [to_csv] writes. The loaded frame is an input, as the clock reading
    is. *)

Inductive Cell :=
| CStr (s : string)      (* a str *)
| CNaN                   (* a missing value: float('nan') *)
| CNum (text : string).  (* a number or a boolean; text is what str() prints *)

(** [str(cell)] *)
Definition py_str (c : Cell) : string :=
  match c with
  | CStr s => s
  | CNaN => "nan"
  | CNum text => text
  end.

(** [cell == s] for a [str] [s]: a missing value, a number and a boolean
    are equal to no string. *)
Definition cell_eq (c : Cell) (s : string) : bool :=
  match c with
  | CStr s' => s' =? s
  | CNaN => false
  | CNum _ => false
  end.

(** What [to_csv] writes for the cell: nothing for a missing value. *)
Definition csv_text (c : Cell) : string :=
  match c with
  | CStr s => s
  | CNaN => EmptyString
  | CNum text => text
  end.

(** A row of the loaded elements frame. *)
Record Row := mkRow {
  title_cell : Cell;
  type_cell : Cell;
  content_cell : Cell
}.

Definition LoadedTable := list Row.

(** The table that [df.to_csv(path, index=False)] leaves in the file. *)
Definition written (df : LoadedTable) : Table :=
  map (fun r => mkElement (csv_text (title_cell r)) (csv_text (type_cell r))
                          (csv_text (content_cell r)))
      df.

(** The loaded frame of a file whose cells are all read as text. *)
Definition text_frame (t : Table) : LoadedTable :=
  map (fun e => mkRow (CStr (title e)) (CStr (type e)) (CStr (content e))) t.

Module LoadedPromptBuilder.

(** [get_content_by_title]: [str(...)] of the content cell of the first row
    whose title cell equals the title. *)
Definition get_content_by_title (df : LoadedTable) (t : string) : option string :=
  match List.filter (fun r => cell_eq (title_cell r) t) df with
  | [] => None
  | r :: _ => Some (py_str (content_cell r))
  end.

(** One turn of [for item in sel]. *)
Definition add_item (df : LoadedTable) (parts : list string) (item : string)
    : list string :=
  if (item =? "Skip") || (item =? "Write your own") then parts
  else
    let c := get_content_by_title df item in
    if Py.truthy_opt c then parts ++ [default EmptyString c] else parts.

(** The body of [for section, data in selections.items()]. *)
Definition process_section (df : LoadedTable) (prompt_parts : list string)
    (section : string) (data : SectionData) : list string :=
  let sel := selected data in
  if PromptBuilder.is_skip sel then prompt_parts
  else
    let section_title := PromptBuilder.section_title section in
    if PromptBuilder.is_multi section then
      let parts :=
        match sel with
        | SelList l => fold_left (add_item df) l []
        | SelStr _ => []
        end in
      let parts :=
        if Py.truthy (custom data) then parts ++ [custom data] else parts in
      let content := Py.join Py.LF (List.filter Py.truthy parts) in
      if Py.truthy content
      then prompt_parts ++ [section_title +:+ ":" +:+ Py.LF +:+ content]
      else prompt_parts
    else
      let content :=
        match sel with
        | SelStr s =>
            if s =? "Write your own" then Some (custom data)
            else get_content_by_title df s
        | SelList _ => get_content_by_title df EmptyString
        end in
      if Py.truthy_opt content
      then prompt_parts ++ [section_title +:+ ": " +:+ default EmptyString content]
      else prompt_parts.

Definition _generate_prompt (selections : list (string * SectionData))
    (df : LoadedTable) (recursive_feedback : bool) : string :=
  let prompt_parts :=
    fold_left (fun pp sd => process_section df pp (fst sd) (snd sd))
              selections [] in
  let prompt := Py.join (Py.LF +:+ Py.LF) prompt_parts in
  if recursive_feedback then prompt +:+ PromptBuilder.RECURSIVE_FEEDBACK else prompt.

End LoadedPromptBuilder.

Module LoadedElementCreator.

(** [((df['title'] == title) & (df['type'] == element_type)).any()] *)
Definition already_exists (df : LoadedTable) (title_in element_type : string) : bool :=
  existsb (fun r => cell_eq (title_cell r) title_in
                    && cell_eq (type_cell r) element_type) df.

(** [ElementCreator.render], when the "Add Element" button is pressed and
    [DataManager.load_data] has returned [df]: the message, and the frame
    handed to [DataManager.save_data] when there is one; with [None] the file
    is not written. *)
Definition render (df : LoadedTable) (element_type title_in content_in : string)
    : ElementCreator.Message * option LoadedTable :=
  if negb (Py.truthy (Py.strip title_in)) then (ElementCreator.TitleRequired, None)
  else if negb (Py.truthy (Py.strip content_in))
  then (ElementCreator.ContentRequired, None)
  else
    if already_exists df title_in element_type
    then (ElementCreator.AlreadyExists, None)
    else
      let new_row :=
        [mkRow (CStr (Py.strip title_in)) (CStr element_type)
               (CStr (Py.strip content_in))] in
      let df := _safe_concat df new_row in
      (ElementCreator.Added, Some df).

End LoadedElementCreator.

Module SectionWidgets.

(** [PromptBuilder._create_section] as a call that returns or raises. The
    free text of a single-choice section is asked for with
    [st.text_input(..., height=None)]; [st.text_input] has no parameter
    [height], so that call raises TypeError: [None]. *)
Definition _create_section (multi_select : bool) (chosen : Selected)
    (custom_widget : string) : option SectionData :=
  let wants_custom :=
    match multi_select, chosen with
    | true, SelList l => existsb (String.eqb "Write your own") l
    | false, SelStr s => s =? "Write your own"
    | _, _ => false
    end in
  if wants_custom then
    if multi_select
    then Some {| selected := chosen; custom := Py.strip custom_widget |}
    else None
  else Some {| selected := chosen; custom := Py.strip EmptyString |}.

End SectionWidgets.

Import PromptBuilder.

(** ** Definitions used in the statements *)

(** The snapshot of the specification's first example. *)
Definition example_elements : Table :=
  [ mkElement "Helpful Assistant" "role" "You are a helpful assistant.";
    mkElement "Concise" "tone" "Be concise." ].

(** The snapshot of the specification's multi-choice example. *)
Definition developers_elements : Table :=
  [ mkElement "Developers" "audience" "Software developers." ].

(** The blocks that the sections of a selection emit, one section at a time. *)
Definition blocks (df : Table) (selections : list (string * SectionData))
    : list string :=
  flat_map (fun sd => process_section df [] (fst sd) (snd sd)) selections.

(** Every section of the selection passes the skip test. *)
Definition all_skipped (selections : list (string * SectionData)) : Prop :=
  Forall (fun sd => is_skip (selected (snd sd)) = true) selections.

(** The two sentinel options that head every option list. *)
Definition is_sentinel (t : string) : bool :=
  (t =? "Skip") || (t =? "Write your own").

(** The chosen titles of a multi-choice selection: its items other than the
    sentinels, in selection order. *)
Definition chosen_titles (l : list string) : list string :=
  List.filter (fun t => negb (is_sentinel t)) l.

(** The content found for a title, when there is one and it is not empty. *)
Definition found_content (df : Table) (t : string) : option string :=
  match get_content_by_title df t with
  | Some c => if Py.truthy c then Some c else None
  | None => None
  end.

(** The items of a multi-choice block as the specification lists them: the
    contents found for the chosen titles, in selection order, then the custom
    text when it is not empty. *)
Definition spec_items (df : Table) (l : list string) (custom_text : string)
    : list string :=
  omap (found_content df) (chosen_titles l)
  ++ (if Py.truthy custom_text then [custom_text] else []).

(** The headers of the multi-choice sections. *)
Definition multi_headers : list (string * string) :=
  [("audience", "Target Audience"); ("context", "Context"); ("output", "Output")].

(** A table of two roles with distinct titles. *)
Definition two_roles : Table :=
  [ mkElement "Analyst" "role" "You analyse data.";
    mkElement "Editor" "role" "You edit text." ].

(** A table with one role. *)
Definition one_role : Table := [ mkElement "Analyst" "role" "You analyse data." ].

(** An uploaded file with the three required columns and a fourth one. *)
Definition upload_with_notes : DataFrame :=
  mkFrame ["title"; "type"; "content"; "notes"]
          [["Concise"; "tone"; "Be concise."; "draft"]].

(** Two clock readings forty minutes apart on 2024-11-03, either side of the
    end of daylight saving time in Denver (08:00:00Z): 07:30:00Z and
    08:10:00Z. *)
Definition clock_before_fall_back : Z := 1730619000000000.
Definition clock_after_fall_back : Z := 1730621400000000.

(** The history after a save at each of the two readings. *)
Definition fall_back_history : list PromptRecord :=
  DataManager.save_prompt clock_after_fall_back
    (DataManager.save_prompt clock_before_fall_back [] "before" "First prompt.")
    "after" "Second prompt.".

(** No row comes before a row with a greater timestamp string. *)
Inductive descending : list PromptRecord -> Prop :=
| descending_nil : descending []
| descending_one r : descending [r]
| descending_cons r r' l :
    PromptBrowser.str_lt (timestamp r) (timestamp r') = false ->
    descending (r' :: l) -> descending (r :: r' :: l).

(** The cells of an element laid out under a header: the element's title,
    type and content under the columns of those names, and [other c] under
    any other column [c]. *)
Definition layout (cols : list string) (other : string -> string) (e : Element)
    : list string :=
  map (fun c => if c =? "title" then title e
                else if c =? "type" then type e
                else if c =? "content" then content e
                else other c)
      cols.

(** Each row is at most its successor in the order of (type, title). *)
Inductive increasing : list (nat * Element) -> Prop :=
| increasing_nil : increasing []
| increasing_one r : increasing [r]
| increasing_cons r r' l :
    ElementEditor.row_le (snd r) (snd r') = true ->
    increasing (r' :: l) -> increasing (r :: r' :: l).

(** The clock reading of 10000-01-01T00:00:00Z, the first that Python's
    [datetime] cannot hold. *)
Definition clock_limit : Z := 253402300800000000.

(** A date as one number: year, month and day as decimal digit groups. *)
Definition date_key (z : Z) : Z :=
  let '(y, m, d) := Datetime.civil_from_days z in (y * 10000 + m * 100 + d)%Z.

(** The date of day [z] has a month and a day of the month in range, and
    comes before the date of day [z + 1]. *)
Definition day_ok (z : Z) : bool :=
  let '(y, m, d) := Datetime.civil_from_days z in
  ((1 <=? m) && (m <=? 12) && (1 <=? d) && (d <=? 31)
   && (date_key z <? date_key (z + 1)))%Z.

(** [day_ok] on the [n] days from [z] on. *)
Fixpoint days_ok (n : nat) (z : Z) : bool :=
  match n with
  | O => true
  | S n' => if day_ok z then days_ok n' (z + 1)%Z else false
  end.

(** The fields of a wall-clock time as one number that grows with them in
    the order year, month, day, hour, minute, second, microsecond. *)
Definition rank (dt : Datetime.datetime) : Z :=
  (((((Datetime.year dt * 10000 + Datetime.month dt * 100 + Datetime.day dt) * 24
      + Datetime.hour dt) * 60 + Datetime.minute dt) * 60
    + Datetime.second dt) * 1000000 + Datetime.microsecond dt)%Z.

(** Every field has a value that [isoformat] prints in the field's width. *)
Definition printable (dt : Datetime.datetime) : Prop :=
  (0 <= Datetime.year dt < 10000 /\ 0 <= Datetime.month dt < 100
   /\ 0 <= Datetime.day dt < 100 /\ 0 <= Datetime.hour dt < 24
   /\ 0 <= Datetime.minute dt < 60 /\ 0 <= Datetime.second dt < 60
   /\ 0 <= Datetime.microsecond dt < 1000000)%Z.

(** The history after a run of saves, each given by its clock reading, its
    name and its prompt, on an empty file. *)
Definition saved_at (saves : list (Z * string * string)) : list PromptRecord :=
  fold_left (fun store s => DataManager.save_prompt (fst (fst s)) store (snd (fst s)) (snd s))
            saves [].

(** The saves were made at growing clock readings, all before [clock_limit]
    and none before 1970, and the zone observed one offset at all of them. *)
Definition one_offset_increasing (saves : list (Z * string * string)) : Prop :=
  ForallOrdPairs
    (fun s s' => (fst (fst s) < fst (fst s'))%Z
                 /\ TZ (fst (fst s) / 1000000) = TZ (fst (fst s') / 1000000))
    saves
  /\ Forall (fun s => (0 <= fst (fst s) < clock_limit)%Z) saves.


(** Every title cell and every type cell of the frame is a string. *)
Definition text_keys (df : LoadedTable) : Prop :=
  Forall (fun r => exists t ty, title_cell r = CStr t /\ type_cell r = CStr ty) df.

(** The loaded frame of a file whose only row is Blank,role, with nothing
    after the second comma. *)
Definition blank_content_frame : LoadedTable :=
  [ mkRow (CStr "Blank") (CStr "role") CNaN ].

(** The loaded frame of a file whose titles are all digits: the column is
    read as integers. *)
Definition numeric_title_frame : LoadedTable :=
  [ mkRow (CNum "123") (CStr "role") (CStr "You count.") ].

(** * Properties *)

(** ** Python helpers *)

Example title_of_keys :
  map Py.title ELEMENT_TYPES = ["Role"; "Goal"; "Audience"; "Context"; "Output"; "Tone"].
Proof. reflexivity. Qed.

Example title_of_words : Py.title "target auDIENCE-x1y" = "Target Audience-X1Y".
Proof. reflexivity. Qed.

Example strip_of_padded : Py.strip (" " +:+ Py.LF +:+ " and  hobbyists " +:+ Py.LF) = "and  hobbyists".
Proof. reflexivity. Qed.

Example strip_of_blank : Py.strip "   " = EmptyString.
Proof. reflexivity. Qed.

Lemma truthy_app_l (a b : string) : Py.truthy a = true -> Py.truthy (a +:+ b) = true.
Proof. destruct a; [discriminate | reflexivity]. Qed.

Lemma truthy_false (s : string) : Py.truthy s = false <-> s = EmptyString.
Proof. destruct s; split; intros H; try reflexivity; discriminate. Qed.

Lemma join_nil (sep : string) : Py.join sep [] = EmptyString.
Proof. reflexivity. Qed.

(** [strip] removes the blanks at both ends, and only those: stripping twice
    is stripping once. *)
Lemma lstrip_head (s : string) :
  Py.lstrip s = EmptyString \/ exists c r, Py.lstrip s = String c r /\ Py.isspace c = false.
Proof.
  induction s as [|c s IH]; simpl; [now left|].
  destruct (Py.isspace c) eqn:E; [assumption|]. right. now exists c, s.
Qed.

Lemma rstrip_head (c : ascii) (s : string) :
  Py.isspace c = false -> exists r, Py.rstrip (String c s) = String c r.
Proof.
  intros E. simpl. destruct (Py.rstrip s) as [|a r].
  - rewrite E. now exists EmptyString.
  - now exists (String a r).
Qed.

Lemma rstrip_idempotent (s : string) : Py.rstrip (Py.rstrip s) = Py.rstrip s.
Proof.
  induction s as [|c s IH]; [reflexivity|]. simpl.
  destruct (Py.rstrip s) as [|a r] eqn:Er.
  - destruct (Py.isspace c) eqn:E; [reflexivity|]. simpl. now rewrite E.
  - change (Py.rstrip (String c (String a r))) with
      (match Py.rstrip (String a r) with
       | EmptyString => if Py.isspace c then EmptyString else String c EmptyString
       | String _ _ as r0 => String c r0
       end).
    now rewrite IH.
Qed.

Lemma strip_idempotent (s : string) : Py.strip (Py.strip s) = Py.strip s.
Proof.
  unfold Py.strip.
  assert (Py.lstrip (Py.rstrip (Py.lstrip s)) = Py.rstrip (Py.lstrip s)) as ->.
  { destruct (lstrip_head s) as [->|(c & r & -> & E)]; [reflexivity|].
    destruct (rstrip_head c r E) as [r' ->]. simpl. now rewrite E. }
  apply rstrip_idempotent.
Qed.

(** ** The loops of the assembler as concatenations *)

Section Assembler.

Variable df : Table.

Lemma add_item_app (parts : list string) (item : string) :
  add_item df parts item = parts ++ add_item df [] item.
Proof.
  unfold add_item.
  destruct ((item =? "Skip") || (item =? "Write your own")).
  - now rewrite app_nil_r.
  - destruct (Py.truthy_opt (get_content_by_title df item)).
    + reflexivity.
    + now rewrite app_nil_r.
Qed.

Lemma fold_add_item (l : list string) (parts : list string) :
  fold_left (add_item df) l parts = parts ++ flat_map (add_item df []) l.
Proof.
  revert parts. induction l as [|item l IH]; intros parts; simpl.
  - now rewrite app_nil_r.
  - rewrite IH, add_item_app. now rewrite <- app_assoc.
Qed.

Lemma process_section_app (pp : list string) (section : string) (data : SectionData) :
  process_section df pp section data = pp ++ process_section df [] section data.
Proof.
  unfold process_section.
  destruct (is_skip (selected data)); [now rewrite app_nil_r|].
  destruct (is_multi section).
  - match goal with |- context [Py.truthy ?c] =>
      match c with Py.join _ _ => destruct (Py.truthy c) end end;
      [reflexivity | now rewrite app_nil_r].
  - match goal with |- context [Py.truthy_opt ?c] => destruct (Py.truthy_opt c) end;
      [reflexivity | now rewrite app_nil_r].
Qed.

Lemma fold_process_section (selections : list (string * SectionData)) (pp : list string) :
  fold_left (fun pp sd => process_section df pp (fst sd) (snd sd)) selections pp
  = pp ++ blocks df selections.
Proof.
  revert pp. induction selections as [|sd sels IH]; intros pp; simpl.
  - now rewrite app_nil_r.
  - rewrite IH, process_section_app. now rewrite <- app_assoc.
Qed.

Lemma generate_prompt_blocks (selections : list (string * SectionData)) (rf : bool) :
  _generate_prompt selections df rf
  = let prompt := Py.join (Py.LF +:+ Py.LF) (blocks df selections) in
    if rf then prompt +:+ RECURSIVE_FEEDBACK else prompt.
Proof. unfold _generate_prompt. now rewrite fold_process_section. Qed.

Lemma blocks_app (s1 s2 : list (string * SectionData)) :
  blocks df (s1 ++ s2) = blocks df s1 ++ blocks df s2.
Proof. apply flat_map_app. Qed.

Lemma blocks_cons (section : string) (d : SectionData)
    (selections : list (string * SectionData)) :
  blocks df ((section, d) :: selections)
  = process_section df [] section d ++ blocks df selections.
Proof. reflexivity. Qed.

Lemma process_section_skip (pp : list string) (section : string) (data : SectionData) :
  is_skip (selected data) = true -> process_section df pp section data = pp.
Proof. intros H. unfold process_section. now rewrite H. Qed.

Lemma blocks_all_skipped (selections : list (string * SectionData)) :
  all_skipped selections -> blocks df selections = [].
Proof.
  induction 1 as [|sd sels Hsd _ IH]; [reflexivity|].
  unfold blocks in *. simpl. rewrite IH, app_nil_r.
  now apply process_section_skip.
Qed.

End Assembler.

(** ** The examples of the specification *)

(** C1: with the snapshot [example_elements], the role "Helpful Assistant",
    the tone "Concise", every other section skipped and no recursive feedback,
    the assembler returns "Role: You are a helpful assistant.", an empty line,
    "Tone: Be concise.": a single-choice section puts header and content on
    one line, and the blocks are joined by two newlines in section order. *)
Theorem C1_role_and_tone_example (goal audience context output : SectionData)
    (custom_role custom_tone : string) :
  is_skip (selected goal) = true ->
  is_skip (selected audience) = true ->
  is_skip (selected context) = true ->
  is_skip (selected output) = true ->
  _generate_prompt
    (render_selections (mkData (SelStr "Helpful Assistant") custom_role) goal
       audience context output (mkData (SelStr "Concise") custom_tone))
    example_elements false
  = "Role: You are a helpful assistant." +:+ Py.LF +:+ Py.LF +:+ "Tone: Be concise.".
Proof.
  intros Hg Ha Hc Ho.
  rewrite generate_prompt_blocks. unfold blocks, render_selections. simpl flat_map.
  rewrite (process_section_skip _ _ _ goal Hg), (process_section_skip _ _ _ audience Ha),
    (process_section_skip _ _ _ context Hc), (process_section_skip _ _ _ output Ho).
  reflexivity.
Qed.

Lemma C1_role_and_tone_example_witness :
  _generate_prompt
    (render_selections (mkData (SelStr "Helpful Assistant") EmptyString)
       (mkData (SelStr "Skip") EmptyString) (mkData (SelList ["Skip"]) EmptyString)
       (mkData (SelList ["Skip"]) EmptyString) (mkData (SelList []) EmptyString)
       (mkData (SelStr "Concise") EmptyString))
    example_elements false
  = "Role: You are a helpful assistant.

Tone: Be concise.".
Proof.
  exact (C1_role_and_tone_example
           (mkData (SelStr "Skip") EmptyString) (mkData (SelList ["Skip"]) EmptyString)
           (mkData (SelList ["Skip"]) EmptyString) (mkData (SelList []) EmptyString) EmptyString EmptyString
           eq_refl eq_refl eq_refl eq_refl).
Defined.

(** C7: whatever the snapshot, when every section passes the skip test and
    recursive feedback is off, the assembler returns the empty string. *)
Theorem C7_all_skipped_empty (df : Table) (selections : list (string * SectionData)) :
  all_skipped selections -> _generate_prompt selections df false = EmptyString.
Proof.
  intros H. rewrite generate_prompt_blocks, (blocks_all_skipped df _ H). reflexivity.
Qed.

Lemma C7_all_skipped_empty_witness :
  _generate_prompt
    (render_selections (mkData (SelStr "Skip") EmptyString) (mkData (SelStr "Skip") EmptyString)
       (mkData (SelList ["Skip"]) EmptyString) (mkData (SelList []) EmptyString)
       (mkData (SelList ["Skip"; "Skip"]) EmptyString) (mkData (SelStr "Skip") EmptyString))
    example_elements false = EmptyString.
Proof.
  apply (C7_all_skipped_empty example_elements).
  unfold all_skipped, render_selections. repeat constructor.
Defined.

(** C9: when every section passes the skip test and recursive feedback is
    on, the output is two newlines followed by the clarifying-question
    instruction: the separator is there although the body is empty. *)
Theorem C9_feedback_after_empty_body (df : Table) (selections : list (string * SectionData)) :
  all_skipped selections ->
  _generate_prompt selections df true
  = Py.LF +:+ Py.LF +:+
    "Before you provide the response, ask any clarifying questions that would improve the output. If you already have enough info, proceed.".
Proof.
  intros H. rewrite generate_prompt_blocks, (blocks_all_skipped df _ H). reflexivity.
Qed.

Lemma C9_feedback_after_empty_body_witness :
  _generate_prompt
    (render_selections (mkData (SelStr "Skip") EmptyString) (mkData (SelStr "Skip") EmptyString)
       (mkData (SelList ["Skip"]) EmptyString) (mkData (SelList ["Skip"]) EmptyString)
       (mkData (SelList ["Skip"]) EmptyString) (mkData (SelStr "Skip") EmptyString))
    example_elements true
  = "

Before you provide the response, ask any clarifying questions that would improve the output. If you already have enough info, proceed.".
Proof.
  apply (C9_feedback_after_empty_body example_elements).
  unfold all_skipped, render_selections. repeat constructor.
Defined.

(** ** Multi-choice sections *)

(** The skip test in words: the one option "Skip", or a list that is empty
    or holds nothing but "Skip". *)
Lemma is_skip_true (sel : Selected) :
  is_skip sel = true <->
  sel = SelStr "Skip" \/ exists l, sel = SelList l /\ Forall (eq "Skip") l.
Proof.
  destruct sel as [s|l]; simpl.
  - rewrite String.eqb_eq. split.
    + intros ->. now left.
    + intros [[= ->]|(l & [=] & _)]. reflexivity.
  - replace (match l with [] => true | _ :: _ => forallb (String.eqb "Skip") l end)
      with (forallb (String.eqb "Skip") l) by now destruct l.
    rewrite forallb_forall. split.
    + intros H. right. exists l. split; [reflexivity|].
      apply Forall_forall. intros x Hx. apply list_elem_of_In in Hx.
      symmetry. apply String.eqb_eq. rewrite String.eqb_sym. now apply H.
    + intros [[=]|(l' & [= <-] & H)] x Hx.
      rewrite Forall_forall in H. apply list_elem_of_In in Hx.
      rewrite (H x Hx). apply String.eqb_refl.
Qed.

Lemma is_skip_list (l : list string) :
  is_skip (SelList l) = forallb (String.eqb "Skip") l.
Proof. destruct l; reflexivity. Qed.

Lemma filter_truthy_id (l : list string) :
  Forall (fun p => Py.truthy p = true) l -> List.filter Py.truthy l = l.
Proof.
  induction 1 as [|p l Hp _ IH]; simpl; [reflexivity|].
  now rewrite Hp, IH.
Qed.

Lemma truthy_join (sep p : string) (l : list string) :
  Py.truthy p = true -> Py.truthy (Py.join sep (p :: l)) = true.
Proof.
  intros Hp. unfold Py.join. destruct l; simpl; [assumption|].
  now apply truthy_app_l.
Qed.

Lemma found_content_truthy (df : Table) (t c : string) :
  found_content df t = Some c -> Py.truthy c = true.
Proof.
  unfold found_content. destruct (get_content_by_title df t) as [c'|]; [|discriminate].
  destruct (Py.truthy c') eqn:E; [|discriminate]. now intros [= <-].
Qed.

Lemma add_item_found (df : Table) (item : string) :
  add_item df [] item
  = if is_sentinel item then [] else
      match found_content df item with Some c => [c] | None => [] end.
Proof.
  unfold add_item, is_sentinel, found_content.
  destruct ((item =? "Skip") || (item =? "Write your own")); [reflexivity|].
  destruct (get_content_by_title df item) as [c|]; simpl; [|reflexivity].
  now destruct (Py.truthy c).
Qed.

Lemma loop_items (df : Table) (l : list string) :
  fold_left (add_item df) l [] = omap (found_content df) (chosen_titles l).
Proof.
  rewrite fold_add_item. simpl.
  induction l as [|item l IH]; simpl; [reflexivity|].
  rewrite IH, add_item_found. unfold chosen_titles. simpl.
  destruct (is_sentinel item); simpl; [reflexivity|].
  now destruct (found_content df item).
Qed.

Lemma spec_items_truthy (df : Table) (l : list string) (c : string) :
  Forall (fun p => Py.truthy p = true) (spec_items df l c).
Proof.
  unfold spec_items. apply Forall_app. split.
  - induction (chosen_titles l) as [|t ts IH]; simpl; [constructor|].
    destruct (found_content df t) as [x|] eqn:E; [|assumption].
    constructor; [now apply (found_content_truthy df t)|assumption].
  - destruct (Py.truthy c) eqn:E; repeat constructor. assumption.
Qed.

(** What a multi-choice section that is not skipped appends. *)
Lemma process_multi (df : Table) (pp : list string) (section : string)
    (l : list string) (c : string) :
  is_multi section = true ->
  is_skip (SelList l) = false ->
  process_section df pp section (mkData (SelList l) c)
  = match spec_items df l c with
    | [] => pp
    | items => pp ++ [section_title section +:+ ":" +:+ Py.LF +:+ Py.join Py.LF items]
    end.
Proof.
  intros Hm Hs. unfold process_section. cbn [selected custom].
  rewrite Hs, Hm, loop_items.
  replace (if Py.truthy c
           then omap (found_content df) (chosen_titles l) ++ [c]
           else omap (found_content df) (chosen_titles l))
    with (spec_items df l c)
    by (unfold spec_items; destruct (Py.truthy c); [reflexivity | now rewrite app_nil_r]).
  pose proof (spec_items_truthy df l c) as Ht.
  rewrite (filter_truthy_id _ Ht).
  destruct (spec_items df l c) as [|p items]; [reflexivity|].
  inversion Ht; subst.
  now rewrite truthy_join.
Qed.

(** C2: a multi-choice section (audience, context, output) that is not
    skipped collects the contents found for the chosen titles in selection
    order, appends the trimmed custom text as last item when it is not empty,
    joins the items with a newline, and emits the header ("Target Audience",
    "Context", "Output"), a colon, a newline and the joined items; with no
    item it emits nothing. *)
Theorem C2_multi_choice_block (df : Table) (pp : list string)
    (section header : string) (l : list string) (raw_custom : string) :
  In (section, header) multi_headers ->
  is_skip (SelList l) = false ->
  process_section df pp section (mkData (SelList l) (Py.strip raw_custom))
  = match spec_items df l (Py.strip raw_custom) with
    | [] => pp
    | items => pp ++ [header +:+ ":" +:+ Py.LF +:+ Py.join Py.LF items]
    end.
Proof.
  intros Hin Hs.
  assert (is_multi section = true /\ section_title section = header) as [Hm Ht].
  { unfold multi_headers in Hin. simpl in Hin.
    destruct Hin as [[= <- <-]|[[= <- <-]|[[= <- <-]|[]]]]; split; reflexivity. }
  rewrite (process_multi df pp section l _ Hm Hs), Ht. reflexivity.
Qed.

Lemma C2_multi_choice_block_witness :
  process_section developers_elements [] "audience"
    (mkData (SelList ["Developers"]) "and hobbyists")
  = ["Target Audience:
Software developers.
and hobbyists"].
Proof.
  exact (C2_multi_choice_block developers_elements [] "audience" "Target Audience"
           ["Developers"] "and hobbyists" (or_introl eq_refl) eq_refl).
Defined.

(** ** Lookup misses and empty contents *)

Lemma get_content_missing (df : Table) (t : string) :
  ~ In t (map title df) -> get_content_by_title df t = None.
Proof.
  intros Hn. unfold get_content_by_title.
  replace (List.filter (title_is t) df) with (@nil Element); [reflexivity|].
  induction df as [|e df IH]; simpl in *; [reflexivity|].
  unfold title_is at 1. destruct (String.eqb_spec (title e) t) as [E|E].
  - exfalso. apply Hn. now left.
  - apply IH. intros H. apply Hn. now right.
Qed.

Lemma get_content_first (pre post : Table) (e : Element) :
  ~ In (title e) (map title pre) ->
  get_content_by_title (pre ++ e :: post) (title e) = Some (content e).
Proof.
  intros Hn. unfold get_content_by_title.
  induction pre as [|e' pre IH]; simpl in *.
  - unfold title_is at 1. now rewrite String.eqb_refl.
  - unfold title_is at 1. destruct (String.eqb_spec (title e') (title e)) as [E|E].
    + exfalso. apply Hn. now left.
    + apply IH. intros H. apply Hn. now right.
Qed.

Lemma found_content_missing (df : Table) (t : string) :
  get_content_by_title df t = None -> found_content df t = None.
Proof. unfold found_content. now intros ->. Qed.

(** A title for which nothing is found leaves [parts] as it is. *)
Lemma add_item_nothing (df : Table) (parts : list string) (t : string) :
  found_content df t = None -> add_item df parts t = parts.
Proof.
  intros H. rewrite add_item_app, add_item_found, H.
  destruct (is_sentinel t); now rewrite app_nil_r.
Qed.

Lemma fold_add_item_nothing (df : Table) (t : string) (l1 l2 parts : list string) :
  found_content df t = None ->
  fold_left (add_item df) (l1 ++ t :: l2) parts
  = fold_left (add_item df) (l1 ++ l2) parts.
Proof.
  intros H. rewrite !fold_left_app. simpl. now rewrite add_item_nothing.
Qed.

(** What a single-choice section appends, in terms of [found_content]. *)
Lemma emit_single (df : Table) (pp : list string) (st t : string) :
  (if Py.truthy_opt (get_content_by_title df t)
   then pp ++ [st +:+ ": " +:+ default EmptyString (get_content_by_title df t)]
   else pp)
  = match found_content df t with
    | Some c => pp ++ [st +:+ ": " +:+ c]
    | None => pp
    end.
Proof.
  unfold found_content.
  destruct (get_content_by_title df t) as [c|]; simpl; [|reflexivity].
  now destruct (Py.truthy c).
Qed.

Lemma process_single_nothing (df : Table) (pp : list string) (section t custom_text : string) :
  found_content df t = None ->
  is_multi section = false -> t <> "Write your own" ->
  process_section df pp section (mkData (SelStr t) custom_text) = pp.
Proof.
  intros Hf Hm Hw. unfold process_section. cbn [selected custom].
  destruct (is_skip (SelStr t)); [reflexivity|]. rewrite Hm.
  destruct (String.eqb_spec t "Write your own") as [E|_]; [contradiction|].
  now rewrite emit_single, Hf.
Qed.

Lemma process_multi_nothing (df : Table) (pp : list string) (section t : string)
    (l1 l2 : list string) (custom_text : string) :
  found_content df t = None ->
  is_multi section = true ->
  is_skip (SelList (l1 ++ l2)) = false \/ custom_text = EmptyString ->
  process_section df pp section (mkData (SelList (l1 ++ t :: l2)) custom_text)
  = process_section df pp section (mkData (SelList (l1 ++ l2)) custom_text).
Proof.
  intros Hf Hm Hc.
  destruct (is_skip (SelList (l1 ++ l2))) eqn:Hs.
  - destruct Hc as [Hc | ->]; [discriminate|].
    rewrite (process_section_skip df pp section (mkData (SelList (l1 ++ l2)) EmptyString) Hs).
    unfold process_section. cbn [selected custom].
    destruct (is_skip (SelList (l1 ++ t :: l2))); [reflexivity|]. rewrite Hm.
    rewrite (fold_add_item_nothing df t l1 l2 [] Hf), loop_items.
    replace (chosen_titles (l1 ++ l2)) with (@nil string); [reflexivity|].
    rewrite is_skip_list in Hs. unfold chosen_titles.
    induction (l1 ++ l2) as [|x xs IH]; simpl in *; [reflexivity|].
    apply andb_true_iff in Hs as [Hx Hxs]. apply String.eqb_eq in Hx. subst x.
    simpl. now apply IH.
  - assert (is_skip (SelList (l1 ++ t :: l2)) = false) as Hs'.
    { rewrite is_skip_list in *. rewrite forallb_app in *. simpl.
      apply andb_false_iff in Hs as [Hs|Hs]; rewrite Hs; [reflexivity|].
      now rewrite andb_false_r, andb_false_r. }
    unfold process_section. cbn [selected custom]. rewrite Hs, Hs', Hm.
    now rewrite (fold_add_item_nothing df t l1 l2 [] Hf).
Qed.

Lemma generate_prompt_replace (df : Table) (pre post : list (string * SectionData))
    (section : string) (d d' : SectionData) (rf : bool) :
  process_section df [] section d = process_section df [] section d' ->
  _generate_prompt (pre ++ (section, d) :: post) df rf
  = _generate_prompt (pre ++ (section, d') :: post) df rf.
Proof.
  intros H. rewrite !generate_prompt_blocks, !blocks_app, !blocks_cons.
  now rewrite H.
Qed.

Lemma generate_prompt_drop (df : Table) (pre post : list (string * SectionData))
    (section : string) (d : SectionData) (rf : bool) :
  process_section df [] section d = [] ->
  _generate_prompt (pre ++ (section, d) :: post) df rf
  = _generate_prompt (pre ++ post) df rf.
Proof.
  intros H. rewrite !generate_prompt_blocks, !blocks_app, blocks_cons.
  now rewrite H.
Qed.

(** A single-choice section that is not skipped, for a title with a
    non-empty content, emits header, colon, blank and content on one line. *)
Lemma process_single_found (df : Table) (pp : list string)
    (section t custom_text c : string) :
  is_multi section = false -> t <> "Skip" -> t <> "Write your own" ->
  found_content df t = Some c ->
  process_section df pp section (mkData (SelStr t) custom_text)
  = pp ++ [section_title section +:+ ": " +:+ c].
Proof.
  intros Hm Hs Hw Hf. unfold process_section. cbn [selected custom is_skip].
  destruct (String.eqb_spec t "Skip") as [E|_]; [contradiction|]. rewrite Hm.
  destruct (String.eqb_spec t "Write your own") as [E|_]; [contradiction|].
  now rewrite emit_single, Hf.
Qed.

(** C8: a chosen title that matches no element title of the snapshot is no
    failure. The lookup answers [None]; in a multi-choice section the item
    adds no part and the other items are collected as without it; in a
    single-choice section no line is emitted; and the whole prompt is the one
    assembled without that item. *)
Theorem C8_lookup_miss_is_silent (df : Table) (t : string) :
  ~ In t (map title df) ->
  get_content_by_title df t = None
  /\ (forall parts, add_item df parts t = parts)
  /\ (forall l1 l2 parts,
        fold_left (add_item df) (l1 ++ t :: l2) parts
        = fold_left (add_item df) (l1 ++ l2) parts)
  /\ (forall pre post section custom_text rf,
        is_multi section = false -> t <> "Write your own" ->
        _generate_prompt (pre ++ (section, mkData (SelStr t) custom_text) :: post) df rf
        = _generate_prompt (pre ++ post) df rf)
  /\ (forall pre post section l1 l2 custom_text rf,
        is_multi section = true ->
        is_skip (SelList (l1 ++ l2)) = false \/ custom_text = EmptyString ->
        _generate_prompt
          (pre ++ (section, mkData (SelList (l1 ++ t :: l2)) custom_text) :: post) df rf
        = _generate_prompt
          (pre ++ (section, mkData (SelList (l1 ++ l2)) custom_text) :: post) df rf).
Proof.
  intros Hn.
  pose proof (get_content_missing df t Hn) as Hg.
  pose proof (found_content_missing df t Hg) as Hf.
  repeat split.
  - exact Hg.
  - intros parts. now apply add_item_nothing.
  - intros l1 l2 parts. now apply fold_add_item_nothing.
  - intros pre post section c rf Hm Hw. apply generate_prompt_drop.
    now apply process_single_nothing.
  - intros pre post section l1 l2 c rf Hm Hc. apply generate_prompt_replace.
    now apply process_multi_nothing.
Qed.

Lemma C8_lookup_miss_is_silent_witness :
  _generate_prompt
    (render_selections (mkData (SelStr "Helpful Assistant") EmptyString)
       (mkData (SelStr "Deleted goal") EmptyString) (mkData (SelList ["Skip"]) EmptyString)
       (mkData (SelList ["Skip"]) EmptyString) (mkData (SelList ["Skip"]) EmptyString)
       (mkData (SelStr "Concise") EmptyString))
    example_elements false
  = "Role: You are a helpful assistant.

Tone: Be concise.".
Proof.
  assert (~ In "Deleted goal" (map title example_elements)) as Hn.
  { simpl. intros [H|[H|[]]]; discriminate. }
  destruct (C8_lookup_miss_is_silent example_elements "Deleted goal" Hn)
    as (_ & _ & _ & Hsingle & _).
  etransitivity.
  - exact (Hsingle [("role", mkData (SelStr "Helpful Assistant") EmptyString)]
             [("audience", mkData (SelList ["Skip"]) EmptyString);
              ("context", mkData (SelList ["Skip"]) EmptyString);
              ("output", mkData (SelList ["Skip"]) EmptyString);
              ("tone", mkData (SelStr "Concise") EmptyString)]
             "goal" EmptyString false eq_refl ltac:(discriminate)).
  - reflexivity.
Defined.

(** Everything the assembler reads from the snapshot goes through
    [found_content]. *)
Lemma process_section_ext (df df' : Table) :
  (forall u, found_content df u = found_content df' u) ->
  forall pp section data,
    process_section df pp section data = process_section df' pp section data.
Proof.
  intros Hext pp section data. unfold process_section.
  destruct (is_skip (selected data)); [reflexivity|].
  destruct (is_multi section).
  - destruct (selected data) as [s|l]; [reflexivity|].
    rewrite !loop_items.
    rewrite (list_omap_ext (found_content df) (found_content df')
               (chosen_titles l) (chosen_titles l)); [reflexivity|].
    induction (chosen_titles l); constructor; auto.
  - destruct (selected data) as [s|l].
    + destruct (s =? "Write your own"); [reflexivity|].
      now rewrite !emit_single, Hext.
    + now rewrite !emit_single, Hext.
Qed.

Lemma generate_prompt_ext (df df' : Table) :
  (forall u, found_content df u = found_content df' u) ->
  forall selections rf,
    _generate_prompt selections df rf = _generate_prompt selections df' rf.
Proof.
  intros Hext selections rf. rewrite !generate_prompt_blocks.
  replace (blocks df' selections) with (blocks df selections); [reflexivity|].
  unfold blocks. induction selections as [|sd sels IH]; simpl; [reflexivity|].
  now rewrite IH, (process_section_ext df df' Hext).
Qed.

(** ** The element store *)

Lemma already_exists_false (df : Table) (t ty : string) :
  ElementCreator.already_exists df t ty = false ->
  forall j e, df !! j = Some e -> ~ (title e = t /\ type e = ty).
Proof.
  intros Hex j e Hj [Ht Hty].
  assert (ElementCreator.already_exists df t ty = true) as Habs; [|congruence].
  unfold ElementCreator.already_exists. apply existsb_exists. exists e. split.
  - apply list_elem_of_In, list_elem_of_lookup. eauto.
  - subst. now rewrite !String.eqb_refl.
Qed.

Lemma already_exists_true (df : Table) (t ty : string) :
  ElementCreator.already_exists df t ty = true <->
  exists e, In e df /\ title e = t /\ type e = ty.
Proof.
  unfold ElementCreator.already_exists. rewrite existsb_exists.
  split; intros (e & Hin & H); exists e; split; try assumption.
  - apply andb_true_iff in H as [H1 H2]. now apply String.eqb_eq in H1, H2.
  - destruct H as [-> ->]. now rewrite !String.eqb_refl.
Qed.

(** Appending a row whose title and type no row has keeps the invariant. *)
Lemma unique_append (df : Table) (e : Element) :
  unique_title_type df ->
  (forall j e', df !! j = Some e' -> ~ (title e' = title e /\ type e' = type e)) ->
  unique_title_type (df ++ [e]).
Proof.
  intros Hu Hfresh i j ei ej Hi Hj Ht Hty.
  apply lookup_app_Some in Hi, Hj.
  destruct Hi as [Hi|[Hli Hi]], Hj as [Hj|[Hlj Hj]].
  - now apply (Hu i j ei ej).
  - apply list_lookup_singleton_Some in Hj as [_ <-].
    exfalso. now apply (Hfresh i ei Hi).
  - apply list_lookup_singleton_Some in Hi as [_ <-].
    exfalso. now apply (Hfresh j ej Hj).
  - apply list_lookup_singleton_Some in Hi as [Hi _].
    apply list_lookup_singleton_Some in Hj as [Hj _]. lia.
Qed.

(** Overwriting row [i] with a title and type that no other row has keeps
    the invariant. *)
Lemma unique_insert (df : Table) (i : nat) (e : Element) :
  unique_title_type df ->
  (forall j e', j <> i -> df !! j = Some e' ->
                ~ (title e' = title e /\ type e' = type e)) ->
  unique_title_type (<[i := e]> df).
Proof.
  intros Hu Hfresh j1 j2 e1 e2 H1 H2 Ht Hty.
  apply list_lookup_insert_Some in H1, H2.
  destruct H1 as [(<- & <- & _)|[Hn1 H1]], H2 as [(<- & <- & _)|[Hn2 H2]].
  - reflexivity.
  - exfalso. apply (Hfresh j2 e2); [congruence | assumption | now split].
  - exfalso. apply (Hfresh j1 e1); [congruence | assumption | now split].
  - now apply (Hu j1 j2 e1 e2).
Qed.

(** An action that does not answer [Added] leaves the file as it was. *)
Lemma add_rejected_unchanged (store : Table) (ty t c : string) :
  fst (ElementCreator.render store ty t c) <> ElementCreator.Added ->
  snd (ElementCreator.render store ty t c) = store.
Proof.
  unfold ElementCreator.render.
  destruct (negb (Py.truthy (Py.strip t))); [reflexivity|].
  destruct (negb (Py.truthy (Py.strip c))); [reflexivity|].
  destruct (ElementCreator.already_exists store t ty); [reflexivity|].
  simpl. congruence.
Qed.

(** With a title and a content that are not blank, the answer is
    [AlreadyExists] exactly when a row has the title as typed, before
    trimming, and the type. *)
Lemma add_duplicate_iff_typed_title (store : Table) (ty t c : string) :
  Py.truthy (Py.strip t) = true -> Py.truthy (Py.strip c) = true ->
  fst (ElementCreator.render store ty t c) = ElementCreator.AlreadyExists
  <-> exists e, In e store /\ title e = t /\ type e = ty.
Proof.
  intros Ht Hc. rewrite <- already_exists_true.
  unfold ElementCreator.render. rewrite Ht, Hc. simpl.
  destruct (ElementCreator.already_exists store t ty); simpl; split; congruence.
Qed.

Lemma unique_two_roles : unique_title_type two_roles.
Proof.
  intros i j ei ej Hi Hj Ht Hty.
  destruct i as [|[|i]], j as [|[|j]]; simpl in *; try reflexivity; try discriminate;
    injection Hi as <-; injection Hj as <-; discriminate.
Qed.

Lemma unique_one_role : unique_title_type one_role.
Proof.
  intros i j ei ej Hi Hj _ _.
  destruct i as [|i], j as [|j]; simpl in *; try reflexivity; discriminate.
Qed.

(** C3 as stated fails: an update that succeeds turns a table without
    duplicates into one where two rows share title and type. *)
Lemma C3_update_creates_duplicate :
  unique_title_type two_roles
  /\ ElementEditor._render_element two_roles 1 "Analyst" "role" "You edit text."
     = (ElementEditor.Updated,
        [ mkElement "Analyst" "role" "You analyse data.";
          mkElement "Analyst" "role" "You edit text." ])
  /\ ~ unique_title_type
         [ mkElement "Analyst" "role" "You analyse data.";
           mkElement "Analyst" "role" "You edit text." ].
Proof.
  split; [exact unique_two_roles|]. split; [reflexivity|].
  intros Hu.
  specialize (Hu 0 1 _ _ eq_refl eq_refl eq_refl eq_refl). discriminate.
Qed.

(** The check reads the title as typed and the row stores it trimmed: a title
    that differs from a stored one by surrounding blanks only is added, and
    the table then holds the pair of title and type twice. *)
Lemma add_accepts_padded_duplicate (store : Table) (ty t c : string) (e : Element) :
  In e store -> title e = Py.strip t -> type e = ty ->
  ElementCreator.already_exists store t ty = false ->
  Py.truthy (Py.strip t) = true -> Py.truthy (Py.strip c) = true ->
  ElementCreator.render store ty t c
  = (ElementCreator.Added, store ++ [mkElement (Py.strip t) ty (Py.strip c)])
  /\ ~ unique_title_type (store ++ [mkElement (Py.strip t) ty (Py.strip c)]).
Proof.
  intros Hin Ht Hty Hex Htt Htc. split.
  - unfold ElementCreator.render. now rewrite Htt, Htc, Hex.
  - intros Hu.
    apply list_elem_of_In, list_elem_of_lookup in Hin as [i Hi].
    pose proof (lookup_lt_Some _ _ _ Hi) as Hlt.
    assert (i = length store); [|lia].
    apply (Hu i (length store) e (mkElement (Py.strip t) ty (Py.strip c))).
    + apply lookup_app_Some. now left.
    + apply lookup_app_Some. right. split; [lia|]. now rewrite Nat.sub_diag.
    + exact Ht.
    + exact Hty.
Qed.

(** C4, at the failing input: the table holds the role "Analyst"; adding the
    role " Analyst" (a leading blank) answers [Added] and stores a second
    row with title "Analyst" and type "role". *)
Theorem C4_add_misses_trimmed_duplicate :
  ElementCreator.render one_role "role" " Analyst" "You analyse numbers."
  = (ElementCreator.Added,
     [ mkElement "Analyst" "role" "You analyse data.";
       mkElement "Analyst" "role" "You analyse numbers." ]).
Proof. reflexivity. Qed.

(** ** Bulk upload *)

Lemma has_required_columns (new_df : DataFrame) :
  forallb (SidebarTools.has_column new_df) CSV_COLUMNS = false
  <-> exists c, In c CSV_COLUMNS /\ ~ In c (columns new_df).
Proof.
  assert (forall c, SidebarTools.has_column new_df c = true <-> In c (columns new_df)) as Hc.
  { intros c. unfold SidebarTools.has_column. rewrite existsb_exists. split.
    - intros (x & Hin & Hx). apply String.eqb_eq in Hx. now subst.
    - intros Hin. exists c. split; [assumption | apply String.eqb_refl]. }
  split.
  - intros Hf.
    destruct (forallb (SidebarTools.has_column new_df) CSV_COLUMNS) eqn:E; [discriminate|].
    clear Hf. induction CSV_COLUMNS as [|c cs IH]; simpl in E; [discriminate|].
    apply andb_false_iff in E as [E|E].
    + exists c. split; [now left|]. intros Hin. apply Hc in Hin. congruence.
    + destruct (IH E) as (c' & Hin & Hn). exists c'. split; [now right | assumption].
  - intros (c & Hin & Hn).
    destruct (forallb (SidebarTools.has_column new_df) CSV_COLUMNS) eqn:E; [|reflexivity].
    exfalso. apply Hn, Hc. rewrite forallb_forall in E. now apply E.
Qed.

(** C5, as the code has it: an upload is refused exactly when one of the
    columns title, type, content is missing from the uploaded table, and then
    the stored table is untouched; any other upload, with extra columns or
    not, is accepted and the stored table becomes the uploaded rows
    restricted to the three columns. *)
Theorem C5_upload_refused_iff_column_missing (store : Table) (new_df : DataFrame) :
  (fst (SidebarTools.render store (Some new_df)) = SidebarTools.MustHaveColumns
   <-> exists c, In c CSV_COLUMNS /\ ~ In c (columns new_df))
  /\ (fst (SidebarTools.render store (Some new_df)) = SidebarTools.MustHaveColumns ->
      snd (SidebarTools.render store (Some new_df)) = store)
  /\ (fst (SidebarTools.render store (Some new_df)) <> SidebarTools.MustHaveColumns ->
      SidebarTools.render store (Some new_df)
      = (SidebarTools.UploadedAndSaved, SidebarTools.select_csv_columns new_df)).
Proof.
  rewrite <- has_required_columns. unfold SidebarTools.render.
  destruct (forallb (SidebarTools.has_column new_df) CSV_COLUMNS); simpl;
    repeat split; congruence.
Qed.

Lemma C5_upload_refused_iff_column_missing_witness :
  SidebarTools.render example_elements (Some (mkFrame ["title"; "content"] [["Concise"; "Be concise."]]))
  = (SidebarTools.MustHaveColumns, example_elements).
Proof.
  pose proof (C5_upload_refused_iff_column_missing example_elements
                (mkFrame ["title"; "content"] [["Concise"; "Be concise."]]))
    as (_ & Hkeep & _).
  specialize (Hkeep eq_refl). reflexivity.
Defined.

(** C5 as stated fails: an upload whose columns are title, type, content and
    notes is accepted and replaces the stored table. *)
Lemma C5_extra_column_accepted :
  In "notes" (columns upload_with_notes)
  /\ ~ In "notes" CSV_COLUMNS
  /\ SidebarTools.render example_elements (Some upload_with_notes)
     = (SidebarTools.UploadedAndSaved, [ mkElement "Concise" "tone" "Be concise." ]).
Proof.
  split; [simpl; tauto|]. split; [|reflexivity].
  simpl. intros [H|[H|[H|[]]]]; discriminate.
Qed.

(** ** Prompt history *)

(** C6, at the failing input: two prompts saved on 2024-11-03 at 07:30:00Z
    and 08:10:00Z are stamped 01:30:00-06:00 and 01:10:00-07:00, and the
    browser lists the one saved first before the one saved last. *)
Theorem C6_fall_back_lists_older_first :
  (clock_before_fall_back < clock_after_fall_back)%Z
  /\ fall_back_history
     = [ mkRecord "before" "2024-11-03T01:30:00-06:00" "First prompt.";
         mkRecord "after" "2024-11-03T01:10:00-07:00" "Second prompt." ]
  /\ PromptBrowser.render fall_back_history
     = [ mkRecord "before" "2024-11-03T01:30:00-06:00" "First prompt.";
         mkRecord "after" "2024-11-03T01:10:00-07:00" "Second prompt." ].
Proof. repeat split; reflexivity. Qed.

(** Stamps taken under one offset do sort newest first. *)
Example same_offset_sorted_desc :
  map timestamp
    (PromptBrowser.render
       (DataManager.save_prompt 1720000002000000
          (DataManager.save_prompt 1720000001500000
             (DataManager.save_prompt 1720000001000000 [] "a" "A") "b" "B") "c" "C"))
  = ["2024-07-03T03:46:42-06:00"; "2024-07-03T03:46:41.500000-06:00";
     "2024-07-03T03:46:41-06:00"].
Proof. reflexivity. Qed.

(** [sort_values_desc] keeps the rows and leaves no row before one with a
    greater timestamp string. *)
Lemma insert_desc_perm (r : PromptRecord) (l : list PromptRecord) :
  PromptBrowser.insert_desc r l ≡ₚ r :: l.
Proof.
  induction l as [|r' l IH]; simpl; [reflexivity|].
  destruct (PromptBrowser.str_lt (timestamp r) (timestamp r')); [|reflexivity].
  rewrite IH. apply Permutation_swap.
Qed.

Lemma sort_values_desc_perm (df : list PromptRecord) :
  PromptBrowser.sort_values_desc df ≡ₚ df.
Proof.
  unfold PromptBrowser.sort_values_desc.
  induction df as [|r df IH]; simpl; [reflexivity|].
  rewrite insert_desc_perm. now constructor.
Qed.

Lemma str_lt_asym (a b : string) :
  PromptBrowser.str_lt a b = true -> PromptBrowser.str_lt b a = false.
Proof.
  unfold PromptBrowser.str_lt. rewrite (String.compare_antisym a b).
  now destruct (String.compare b a).
Qed.

Lemma insert_desc_descending (r : PromptRecord) (l : list PromptRecord) :
  descending l -> descending (PromptBrowser.insert_desc r l).
Proof.
  induction 1 as [|r1|r1 r2 l H12 Hd IH]; simpl.
  - constructor.
  - destruct (PromptBrowser.str_lt (timestamp r) (timestamp r1)) eqn:E.
    + constructor; [now apply str_lt_asym | constructor].
    + constructor; [assumption | constructor].
  - destruct (PromptBrowser.str_lt (timestamp r) (timestamp r1)) eqn:E1.
    + simpl in IH.
      destruct (PromptBrowser.str_lt (timestamp r) (timestamp r2)) eqn:E2.
      * constructor; assumption.
      * constructor; [now apply str_lt_asym | assumption].
    + constructor; [assumption|]. now constructor.
Qed.

Lemma sort_values_desc_descending (df : list PromptRecord) :
  descending (PromptBrowser.sort_values_desc df).
Proof.
  unfold PromptBrowser.sort_values_desc.
  induction df as [|r df IH]; simpl; [constructor|].
  now apply insert_desc_descending.
Qed.

(** * Further properties of the code *)

(** ** The assembler *)

Lemma truthy_app_r (a b : string) : Py.truthy b = true -> Py.truthy (a +:+ b) = true.
Proof. destruct a; [trivial | reflexivity]. Qed.

(** A section appends nothing or one block, and a block is never empty. *)
Lemma process_section_block (df : Table) (section : string) (data : SectionData) :
  process_section df [] section data = []
  \/ exists b, process_section df [] section data = [b] /\ Py.truthy b = true.
Proof.
  unfold process_section.
  destruct (is_skip (selected data)); [now left|].
  destruct (is_multi section).
  - match goal with |- context [Py.truthy ?c] =>
      match c with Py.join _ _ => destruct (Py.truthy c) end end; [|now left].
    right. eexists. split; [reflexivity|].
    apply truthy_app_r. reflexivity.
  - match goal with |- context [Py.truthy_opt ?c] => destruct (Py.truthy_opt c) end;
      [|now left].
    right. eexists. split; [reflexivity|].
    apply truthy_app_r. reflexivity.
Qed.

Lemma blocks_truthy (df : Table) (selections : list (string * SectionData)) :
  Forall (fun b => Py.truthy b = true) (blocks df selections).
Proof.
  unfold blocks. induction selections as [|sd sels IH]; simpl; [constructor|].
  apply Forall_app. split; [|assumption].
  destruct (process_section_block df (fst sd) (snd sd)) as [->|(b & -> & Hb)];
    repeat constructor. assumption.
Qed.

(** X1: without recursive feedback the prompt is the empty string exactly
    when no section emits a block: a section never contributes an empty
    block or a bare separator. *)
Theorem X1_prompt_empty_iff_no_block (df : Table)
    (selections : list (string * SectionData)) :
  _generate_prompt selections df false = EmptyString
  <-> forall sd, In sd selections ->
                 process_section df [] (fst sd) (snd sd) = [].
Proof.
  rewrite generate_prompt_blocks. cbn zeta iota.
  pose proof (blocks_truthy df selections) as Ht.
  split.
  - intros He. assert (blocks df selections = []) as Hb.
    { destruct (blocks df selections) as [|b bs]; [reflexivity|].
      inversion Ht; subst.
      pose proof (truthy_join (Py.LF +:+ Py.LF) b bs H1) as Hj.
      rewrite He in Hj. discriminate. }
    clear He Ht. unfold blocks in Hb.
    induction selections as [|sd' sels IH]; intros sd Hin; [destruct Hin|].
    simpl in Hb. apply app_eq_nil in Hb as [H1 H2].
    destruct Hin as [<-|Hin]; [assumption | now apply IH].
  - intros Hall. replace (blocks df selections) with (@nil string); [reflexivity|].
    clear Ht. unfold blocks.
    induction selections as [|sd' sels IH]; simpl; [reflexivity|].
    rewrite (Hall sd' (or_introl eq_refl)), <- IH; [reflexivity|].
    intros sd Hin. apply Hall. now right.
Qed.

(** X2: a section that passes the skip test can be removed from the
    selection, wherever it stands, without changing the prompt; its custom
    text is not read. *)
Theorem X2_skipped_section_is_dropped (df : Table)
    (pre post : list (string * SectionData)) (section : string)
    (data : SectionData) (rf : bool) :
  is_skip (selected data) = true ->
  _generate_prompt (pre ++ (section, data) :: post) df rf
  = _generate_prompt (pre ++ post) df rf.
Proof.
  intros Hs. apply generate_prompt_drop. now apply process_section_skip.
Qed.

Lemma X2_skipped_section_is_dropped_witness :
  _generate_prompt
    [("role", mkData (SelStr "Helpful Assistant") EmptyString);
     ("audience", mkData (SelList ["Skip"]) "left over text");
     ("tone", mkData (SelStr "Concise") EmptyString)]
    example_elements true
  = _generate_prompt
    [("role", mkData (SelStr "Helpful Assistant") EmptyString);
     ("tone", mkData (SelStr "Concise") EmptyString)]
    example_elements true.
Proof.
  exact (X2_skipped_section_is_dropped example_elements
           [("role", mkData (SelStr "Helpful Assistant") EmptyString)]
           [("tone", mkData (SelStr "Concise") EmptyString)]
           "audience" (mkData (SelList ["Skip"]) "left over text") true eq_refl).
Defined.

(** X3: in a single-choice section the options "Skip" and "Write your own"
    keep their meaning whatever the snapshot holds, elements with those very
    titles included: "Skip" emits nothing, "Write your own" emits the header
    and the custom text on one line when that text is not empty. *)
Theorem X3_sentinels_shadow_titles (df : Table) (pp : list string)
    (section custom_text : string) :
  is_multi section = false ->
  process_section df pp section (mkData (SelStr "Skip") custom_text) = pp
  /\ process_section df pp section (mkData (SelStr "Write your own") custom_text)
     = if Py.truthy custom_text
       then pp ++ [section_title section +:+ ": " +:+ custom_text]
       else pp.
Proof.
  intros Hm. split.
  - now apply process_section_skip.
  - unfold process_section. cbn [selected custom is_skip].
    change ("Write your own" =? "Skip") with false. cbn iota. rewrite Hm.
    change ("Write your own" =? "Write your own") with true. cbn iota.
    reflexivity.
Qed.

Lemma X3_sentinels_shadow_titles_witness :
  process_section [mkElement "Write your own" "role" "Shadowed."] [] "role"
    (mkData (SelStr "Write your own") "You are a poet.")
  = ["Role: You are a poet."].
Proof.
  exact (proj2 (X3_sentinels_shadow_titles
                  [mkElement "Write your own" "role" "Shadowed."] [] "role"
                  "You are a poet." eq_refl)).
Defined.

(** X4: the lookup answers with the content of the first row that has the
    title, whatever the type of that row: a later row with the same title,
    of the section's own type or not, is never read. *)
Theorem X4_lookup_takes_first_title (df : Table) (i : nat) (e : Element) :
  df !! i = Some e ->
  (forall j e', j < i -> df !! j = Some e' -> title e' <> title e) ->
  get_content_by_title df (title e) = Some (content e).
Proof.
  intros Hi Hfirst.
  pose proof (take_drop_middle df i e Hi) as Hsplit.
  rewrite <- Hsplit. apply get_content_first.
  intros Hin. apply in_map_iff in Hin as (e' & Ht & Hin).
  apply list_elem_of_In, list_elem_of_lookup in Hin as [j Hj].
  pose proof (lookup_lt_Some _ _ _ Hj) as Hlt. rewrite length_take in Hlt.
  apply (Hfirst j e'); [lia | | assumption].
  rewrite lookup_take_lt in Hj by lia. exact Hj.
Qed.

Lemma X4_lookup_takes_first_title_witness :
  get_content_by_title
    [mkElement "Concise" "role" "You are concise.";
     mkElement "Concise" "tone" "Be concise."] "Concise"
  = Some "You are concise.".
Proof.
  apply (X4_lookup_takes_first_title
           [mkElement "Concise" "role" "You are concise.";
            mkElement "Concise" "tone" "Be concise."]
           0 (mkElement "Concise" "role" "You are concise.") eq_refl).
  intros j e' Hj. lia.
Defined.

Lemma get_content_titles_contents (df df' : Table) (t : string) :
  map title df = map title df' -> map content df = map content df' ->
  get_content_by_title df t = get_content_by_title df' t.
Proof.
  unfold get_content_by_title. revert df'.
  induction df as [|e df IH]; intros [|e' df'] Ht Hc; try discriminate; [reflexivity|].
  simpl in Ht, Hc. injection Ht as Ht1 Ht2. injection Hc as Hc1 Hc2.
  simpl. replace (title_is t e) with (title_is t e') by (unfold title_is; now rewrite Ht1).
  destruct (title_is t e'); cbn iota; [now rewrite Hc1 | now apply IH].
Qed.

(** X5: the assembler never reads the type column: two snapshots with the
    same titles and the same contents, row by row, give the same prompt for
    every selection. *)
Theorem X5_prompt_ignores_types (df df' : Table)
    (selections : list (string * SectionData)) (rf : bool) :
  map title df = map title df' -> map content df = map content df' ->
  _generate_prompt selections df rf = _generate_prompt selections df' rf.
Proof.
  intros Ht Hc. apply generate_prompt_ext. intros u. unfold found_content.
  now rewrite (get_content_titles_contents df df' u Ht Hc).
Qed.

Lemma X5_prompt_ignores_types_witness :
  _generate_prompt [("tone", mkData (SelStr "Concise") EmptyString)]
    [mkElement "Concise" "role" "Be concise."] false
  = _generate_prompt [("tone", mkData (SelStr "Concise") EmptyString)]
    [mkElement "Concise" "tone" "Be concise."] false.
Proof.
  exact (X5_prompt_ignores_types
           [mkElement "Concise" "role" "Be concise."]
           [mkElement "Concise" "tone" "Be concise."]
           [("tone", mkData (SelStr "Concise") EmptyString)] false eq_refl eq_refl).
Defined.

Lemma existsb_app_cons_other (t : string) (l1 l2 : list string) :
  t <> "Write your own" ->
  existsb (String.eqb "Write your own") (l1 ++ t :: l2)
  = existsb (String.eqb "Write your own") (l1 ++ l2).
Proof.
  intros Ht. rewrite !existsb_app. simpl.
  destruct (String.eqb_spec "Write your own" t) as [E|_]; [congruence|].
  reflexivity.
Qed.

Lemma all_skip_no_custom (l : list string) :
  is_skip (SelList l) = true -> existsb (String.eqb "Write your own") l = false.
Proof.
  rewrite is_skip_list. induction l as [|x l IH]; simpl; [reflexivity|].
  intros H. apply andb_true_iff in H as [Hx Hl]. apply String.eqb_eq in Hx. subst x.
  rewrite (IH Hl). reflexivity.
Qed.

(** X7: for a multi-choice section whose data comes from [_create_section],
    a chosen title that no element of the snapshot has can be removed from
    the selection without changing the prompt. *)
Theorem X7_missing_title_from_widgets (df : Table) (t : string)
    (pre post : list (string * SectionData)) (section : string)
    (l1 l2 : list string) (custom_widget : string) (rf : bool) :
  ~ In t (map title df) -> t <> "Write your own" -> is_multi section = true ->
  _generate_prompt
    (pre ++ (section, _create_section true (SelList (l1 ++ t :: l2)) custom_widget) :: post)
    df rf
  = _generate_prompt
    (pre ++ (section, _create_section true (SelList (l1 ++ l2)) custom_widget) :: post)
    df rf.
Proof.
  intros Hn Ht Hm. apply generate_prompt_replace.
  unfold _create_section. rewrite (existsb_app_cons_other t l1 l2 Ht).
  apply process_multi_nothing; [|assumption|].
  - apply found_content_missing. now apply get_content_missing.
  - destruct (is_skip (SelList (l1 ++ l2))) eqn:Hs; [right | now left].
    now rewrite (all_skip_no_custom _ Hs).
Qed.

Lemma X7_missing_title_from_widgets_witness :
  _generate_prompt
    [("audience",
      _create_section true (SelList ["Skip"; "Deleted"; "Write your own"]) " and hobbyists ")]
    developers_elements false
  = "Target Audience:
and hobbyists".
Proof.
  etransitivity.
  - apply (X7_missing_title_from_widgets developers_elements "Deleted" [] []
             "audience" ["Skip"] ["Write your own"] " and hobbyists " false).
    + simpl. intros [H|[]]. discriminate.
    + discriminate.
    + reflexivity.
  - reflexivity.
Defined.

(** ** The element store: add, update, delete *)

Lemma truthy_true (s : string) : Py.truthy s = true <-> s <> EmptyString.
Proof. destruct s; split; intros H; try reflexivity; try discriminate; congruence. Qed.

(** X11: an update with a blank title or a blank content changes nothing.
    An update of a row of the table with a title and a content that are not
    blank overwrites that row with the type as given and the title and
    content trimmed, and leaves the number of rows and every other row as
    they were. *)
Theorem X11_update_changes_one_row (df : Table) (i : nat) (nt ty nc : string) :
  (Py.strip nt = EmptyString \/ Py.strip nc = EmptyString ->
   fst (ElementEditor._render_element df i nt ty nc) <> ElementEditor.Updated
   /\ snd (ElementEditor._render_element df i nt ty nc) = df)
  /\ (Py.strip nt <> EmptyString -> Py.strip nc <> EmptyString -> i < length df ->
      exists df',
        ElementEditor._render_element df i nt ty nc = (ElementEditor.Updated, df')
        /\ length df' = length df
        /\ df' !! i = Some (mkElement (Py.strip nt) ty (Py.strip nc))
        /\ forall j, j <> i -> df' !! j = df !! j).
Proof.
  unfold ElementEditor._render_element. split.
  - intros [H|H].
    + rewrite H. cbn. split; [discriminate | reflexivity].
    + rewrite H. destruct (Py.truthy (Py.strip nt)); cbn; split;
        try discriminate; reflexivity.
  - intros Ht Hc Hi. apply truthy_true in Ht, Hc. rewrite Ht, Hc. cbn [negb].
    unfold ElementEditor.set_row.
    destruct (Nat.ltb_spec i (length df)) as [_|Hge]; [|lia].
    eexists. split; [reflexivity|]. split; [apply length_insert|]. split.
    + now apply list_lookup_insert_eq.
    + intros j Hj. apply list_lookup_insert_ne. congruence.
Qed.

Lemma X11_update_changes_one_row_witness :
  ElementEditor._render_element two_roles 1 " Reviewer " "goal" "Review the text."
  = (ElementEditor.Updated,
     [ mkElement "Analyst" "role" "You analyse data.";
       mkElement "Reviewer" "goal" "Review the text." ]).
Proof.
  destruct (proj2 (X11_update_changes_one_row two_roles 1 " Reviewer " "goal"
                     "Review the text.")) as (df' & H & _).
  - discriminate.
  - discriminate.
  - simpl. lia.
  - reflexivity.
Defined.

(** X12: a delete of a row of the table removes that row and nothing else:
    the rows before it stay where they are, the rows after it move up by
    one, and a table without two rows of the same title and type stays so.
    A position outside the table is an error and changes nothing. *)
Theorem X12_delete_removes_one_row (df : Table) (i : nat) :
  (i < length df ->
   exists df',
     ElementEditor._render_element_delete df i = (ElementEditor.Deleted, df')
     /\ S (length df') = length df
     /\ (forall j, j < i -> df' !! j = df !! j)
     /\ (forall j, i <= j -> df' !! j = df !! S j)
     /\ (unique_title_type df -> unique_title_type df'))
  /\ (length df <= i ->
      ElementEditor._render_element_delete df i = (ElementEditor.KeyError, df)).
Proof.
  unfold ElementEditor._render_element_delete. unfold Table in *. split.
  - intros Hi. destruct (Nat.ltb_spec i (length df)) as [_|Hge]; [|lia].
    eexists. split; [reflexivity|]. split; [|split; [|split]].
    + pose proof (length_delete df i (proj2 (lookup_lt_is_Some df i) Hi)) as Hl.
      change (length (delete i df) = length df - 1) in Hl. lia.
    + intros j Hj. now apply list_lookup_delete_lt.
    + intros j Hj. now apply list_lookup_delete_ge.
    + intros Hu j1 j2 e1 e2 H1 H2 Ht Hty.
      assert (forall j e, delete i df !! j = Some e ->
                exists k, df !! k = Some e /\ k = (if Nat.ltb j i then j else S j)) as Hk.
      { intros j e Hj. destruct (Nat.ltb_spec j i) as [Hlt|Hle].
        - rewrite list_lookup_delete_lt in Hj by assumption. eauto.
        - rewrite list_lookup_delete_ge in Hj by assumption. eauto. }
      destruct (Hk j1 e1 H1) as (k1 & Hk1 & E1), (Hk j2 e2 H2) as (k2 & Hk2 & E2).
      pose proof (Hu k1 k2 e1 e2 Hk1 Hk2 Ht Hty) as Heq.
      destruct (Nat.ltb_spec j1 i), (Nat.ltb_spec j2 i); lia.
  - intros Hi. destruct (Nat.ltb_spec i (length df)) as [Hlt|_]; [lia | reflexivity].
Qed.

Lemma X12_delete_removes_one_row_witness :
  ElementEditor._render_element_delete two_roles 0
  = (ElementEditor.Deleted, [mkElement "Editor" "role" "You edit text."]).
Proof.
  destruct (proj1 (X12_delete_removes_one_row two_roles 0)) as (df' & H & _).
  - simpl. lia.
  - reflexivity.
Defined.

(** ** The element editor's list *)

Lemma insert_row_perm (r : nat * Element) (l : list (nat * Element)) :
  ElementEditor.insert_row r l ≡ₚ r :: l.
Proof.
  induction l as [|r' l IH]; simpl; [reflexivity|].
  destruct (ElementEditor.row_le (snd r) (snd r')); [reflexivity|].
  rewrite IH. apply Permutation_swap.
Qed.

Lemma sort_by_type_title_perm (l : list (nat * Element)) :
  ElementEditor.sort_by_type_title l ≡ₚ l.
Proof.
  unfold ElementEditor.sort_by_type_title.
  induction l as [|r l IH]; simpl; [reflexivity|].
  rewrite insert_row_perm. now constructor.
Qed.

Lemma indexed_rows (df : Table) (i : nat) (e : Element) :
  In (i, e) (imap (fun i e => (i, e)) df) <-> df !! i = Some e.
Proof.
  rewrite <- list_elem_of_In, elem_of_lookup_imap. split.
  - intros (j & y & [= -> ->] & H). exact H.
  - intros H. now exists i, e.
Qed.

Lemma indexed_rows_labels (df : Table) :
  map fst (imap (fun i e => (i, e)) df) = seq 0 (length df).
Proof.
  change (map fst (imap (fun i e => (i, e)) df))
    with (fst <$> imap (fun i e => (i, e)) df).
  rewrite fmap_imap.
  rewrite (imap_ext _ (fun j _ => id j) df) by reflexivity.
  rewrite (imap_seq_0 df id). apply list_fmap_id.
Qed.

Lemma NoDup_map_filter {A B} (f : A -> B) (p : A -> bool) (l : list A) :
  NoDup (map f l) -> NoDup (map f (List.filter p l)).
Proof.
  induction l as [|x l IH]; simpl; [trivial|].
  intros H. apply NoDup_cons in H as [Hx Hl].
  destruct (p x); simpl; [|now apply IH].
  apply NoDup_cons. split; [|now apply IH].
  intros Hin. apply Hx.
  apply list_elem_of_In in Hin. apply list_elem_of_In.
  apply in_map_iff in Hin as (y & Hy & Hin). apply in_map_iff.
  exists y. split; [assumption|]. apply filter_In in Hin. tauto.
Qed.

(** X14: the editor draws an expander for a row, under the label [i],
    exactly when [i] is the position of that row in the table and the row
    passes the type filter and the search; no label is drawn twice; hence a
    delete started from a drawn expander always finds its row. *)
Theorem X14_editor_rows_are_table_rows (contains : string -> string -> bool)
    (df : Table) (selected_type q : string) :
  (forall i e,
      In (i, e) (ElementEditor.render contains df selected_type q)
      <-> df !! i = Some e
          /\ ElementEditor.mask contains selected_type q e = true)
  /\ NoDup (map fst (ElementEditor.render contains df selected_type q))
  /\ (forall i e,
        In (i, e) (ElementEditor.render contains df selected_type q) ->
        fst (ElementEditor._render_element_delete df i) = ElementEditor.Deleted).
Proof.
  assert (forall i e,
      In (i, e) (ElementEditor.render contains df selected_type q)
      <-> df !! i = Some e
          /\ ElementEditor.mask contains selected_type q e = true) as Hin.
  { intros i e. unfold ElementEditor.render.
    rewrite <- !list_elem_of_In, sort_by_type_title_perm, list_elem_of_In.
    rewrite filter_In, indexed_rows. reflexivity. }
  split; [exact Hin|]. split.
  - unfold ElementEditor.render.
    rewrite (@Permutation_map _ _ fst _ _ (sort_by_type_title_perm _)).
    apply NoDup_map_filter. rewrite indexed_rows_labels. apply NoDup_seq.
  - intros i e H. apply Hin in H as [H _]. apply lookup_lt_Some in H.
    unfold ElementEditor._render_element_delete.
    destruct (Nat.ltb_spec i (length df)); [reflexivity | lia].
Qed.

Lemma row_le_total (a b : Element) :
  ElementEditor.row_le a b = false -> ElementEditor.row_le b a = true.
Proof.
  unfold ElementEditor.row_le.
  rewrite (String.compare_antisym (type b) (type a)),
          (String.compare_antisym (title b) (title a)).
  destruct (String.compare (type a) (type b)); simpl; try discriminate; try reflexivity.
  destruct (String.compare (title a) (title b)); simpl; try discriminate; reflexivity.
Qed.

Lemma insert_row_increasing (r : nat * Element) (l : list (nat * Element)) :
  increasing l -> increasing (ElementEditor.insert_row r l).
Proof.
  induction 1 as [|r1|r1 r2 l H12 Hd IH]; simpl.
  - constructor.
  - destruct (ElementEditor.row_le (snd r) (snd r1)) eqn:E.
    + constructor; [assumption | constructor].
    + constructor; [now apply row_le_total | constructor].
  - destruct (ElementEditor.row_le (snd r) (snd r1)) eqn:E1.
    + constructor; [assumption|]. now constructor.
    + simpl in IH.
      destruct (ElementEditor.row_le (snd r) (snd r2)) eqn:E2.
      * constructor; [now apply row_le_total | assumption].
      * constructor; assumption.
Qed.

(** X15: the editor draws the rows in increasing order of type and, within
    a type, of title: no expander is followed by one whose (type, title)
    pair is smaller. *)
Theorem X15_editor_rows_are_sorted (contains : string -> string -> bool)
    (df : Table) (selected_type q : string) :
  increasing (ElementEditor.render contains df selected_type q).
Proof.
  unfold ElementEditor.render, ElementEditor.sort_by_type_title.
  induction (List.filter _ _) as [|r l IH]; simpl; [constructor|].
  now apply insert_row_increasing.
Qed.

(** ** Bulk upload, whatever the order of the columns *)

Lemma index_of_in (c : string) (cols : list string) :
  In c cols -> exists i, SidebarTools.index_of c cols = Some i /\ cols !! i = Some c.
Proof.
  induction cols as [|c' cols IH]; simpl; [intros []|].
  intros Hin. destruct (String.eqb_spec c' c) as [->|Hne].
  - exists 0. now split.
  - destruct Hin as [Heq|Hin]; [contradiction|].
    destruct (IH Hin) as (i & Hi & Hl). exists (S i). rewrite Hi. now split.
Qed.

Lemma cell_map (f : string -> string) (cols : list string) (c : string) :
  In c cols -> SidebarTools.cell cols (map f cols) c = f c.
Proof.
  intros Hin. destruct (index_of_in c cols Hin) as (i & Hi & Hl).
  unfold SidebarTools.cell. rewrite Hi.
  change (map f cols) with (f <$> cols). now rewrite list_lookup_fmap, Hl.
Qed.

(** X16: an upload that has the three required columns, in any order and
    among any other columns, is accepted and stores exactly the elements its
    rows hold under those three names. Nothing is checked row by row: any
    table at all, one with two rows of the same title and type included, can
    be stored this way, and the table stored before plays no part. *)
Theorem X16_upload_reads_columns_by_name (store t : Table) (cols : list string)
    (other : string -> string) :
  (forall c, In c CSV_COLUMNS -> In c cols) ->
  SidebarTools.render store (Some (mkFrame cols (map (layout cols other) t)))
  = (SidebarTools.UploadedAndSaved, t).
Proof.
  intros Hcols. unfold SidebarTools.render.
  assert (forallb (SidebarTools.has_column (mkFrame cols (map (layout cols other) t)))
                  CSV_COLUMNS = true) as ->.
  { apply forallb_forall. intros c Hc. unfold SidebarTools.has_column. cbn.
    apply existsb_exists. exists c. split; [now apply Hcols | apply String.eqb_refl]. }
  cbn [negb]. f_equal. unfold SidebarTools.select_csv_columns. cbn [columns rows].
  rewrite map_map. rewrite <- (map_id t) at 2. apply map_ext. intros e.
  unfold layout.
  rewrite !cell_map by (apply Hcols; unfold CSV_COLUMNS; simpl; tauto).
  now destruct e.
Qed.

Lemma X16_upload_reads_columns_by_name_witness :
  SidebarTools.render example_elements
    (Some (mkFrame ["content"; "notes"; "type"; "title"]
             [["You analyse data."; "n/a"; "role"; "Analyst"];
              ["You analyse numbers."; "n/a"; "role"; "Analyst"]]))
  = (SidebarTools.UploadedAndSaved,
     [mkElement "Analyst" "role" "You analyse data.";
      mkElement "Analyst" "role" "You analyse numbers."]).
Proof.
  apply (X16_upload_reads_columns_by_name example_elements
           [mkElement "Analyst" "role" "You analyse data.";
            mkElement "Analyst" "role" "You analyse numbers."]
           ["content"; "notes"; "type"; "title"] (fun _ => "n/a")).
  unfold CSV_COLUMNS. simpl. intros c [<-|[<-|[<-|[]]]]; tauto.
Defined.

(** ** Repairing a CSV file on load *)

Lemma has_column_in (df : DataFrame) (c : string) :
  SidebarTools.has_column df c = true <-> In c (columns df).
Proof.
  unfold SidebarTools.has_column. rewrite existsb_exists. split.
  - intros (x & Hin & Hx). apply String.eqb_eq in Hx. now subst.
  - intros Hin. exists c. split; [assumption | apply String.eqb_refl].
Qed.

Lemma missing_nil (df : DataFrame) (cols : list string) :
  List.filter (fun c => negb (SidebarTools.has_column df c)) cols = []
  <-> forall c, In c cols -> In c (columns df).
Proof.
  induction cols as [|c cols IH]; simpl.
  - split; [intros _ c [] | reflexivity].
  - destruct (SidebarTools.has_column df c) eqn:E; simpl.
    + rewrite IH. apply has_column_in in E. split.
      * intros H c' [<-|Hin]; [assumption | now apply H].
      * intros H c' Hin. apply H. now right.
    + split; [discriminate|]. intros H.
      assert (SidebarTools.has_column df c = true) as E'
          by (apply has_column_in, H; now left).
      congruence.
Qed.

Lemma ensure_csv_complete (df : DataFrame) (cols : list string) :
  (forall c, In c cols -> In c (columns df)) ->
  _ensure_csv (Some df) cols = (df, Some df).
Proof.
  intros Hall. apply missing_nil in Hall. cbn [_ensure_csv]. now rewrite Hall.
Qed.

Lemma ensure_csv_file (file : option DataFrame) (cols : list string) :
  snd (_ensure_csv file cols) = Some (fst (_ensure_csv file cols))
  /\ (forall c, In c cols -> In c (columns (fst (_ensure_csv file cols)))).
Proof.
  destruct file as [df|]; cbn [_ensure_csv]; [|now split].
  destruct (List.filter (fun c => negb (SidebarTools.has_column df c)) cols)
    as [|m ms] eqn:Em; [|now split].
  split; [reflexivity|]. now apply missing_nil.
Qed.

Lemma fold_set_column_rows (missing : list string) (df : DataFrame) :
  length (rows (fold_left (fun d c => set_column d c EmptyString) missing df))
  = length (rows df).
Proof.
  revert df. induction missing as [|c l IH]; intros df; [reflexivity|].
  cbn [fold_left]. rewrite IH. unfold set_column.
  destruct (SidebarTools.index_of c (columns df)); cbn; apply length_map.
Qed.

Lemma ensure_csv_repair (df : DataFrame) (cols : list string) :
  (exists c, In c cols /\ ~ In c (columns df)) ->
  columns (fst (_ensure_csv (Some df) cols)) = cols
  /\ length (rows (fst (_ensure_csv (Some df) cols))) = length (rows df).
Proof.
  intros (c & Hc & Hn). cbn [_ensure_csv].
  destruct (List.filter (fun c => negb (SidebarTools.has_column df c)) cols)
    as [|m ms] eqn:Em.
  - exfalso. apply Hn. now apply (proj1 (missing_nil df cols) Em).
  - unfold select_columns. cbn [fst columns rows]. split; [reflexivity|].
    rewrite length_map. apply (fold_set_column_rows (m :: ms)).
Qed.

(** X17: after [_ensure_csv] the file exists and holds the frame that is
    returned, and that frame has every expected column. A path without a file
    gets an empty table under exactly the expected header. A file that has
    every expected column is returned and left as it is, columns beyond the
    expected ones included. A file that lacks an expected column is rewritten
    under exactly the expected header, with as many rows as before. *)
Theorem X17_ensure_csv_outcome (file : option DataFrame) (cols : list string) :
  snd (_ensure_csv file cols) = Some (fst (_ensure_csv file cols))
  /\ (forall c, In c cols -> In c (columns (fst (_ensure_csv file cols))))
  /\ (file = None -> fst (_ensure_csv file cols) = mkFrame cols [])
  /\ (forall df, file = Some df ->
        (forall c, In c cols -> In c (columns df)) ->
        _ensure_csv file cols = (df, Some df))
  /\ (forall df, file = Some df ->
        (exists c, In c cols /\ ~ In c (columns df)) ->
        columns (fst (_ensure_csv file cols)) = cols
        /\ length (rows (fst (_ensure_csv file cols))) = length (rows df)).
Proof.
  destruct (ensure_csv_file file cols) as [Hf Hc].
  split; [exact Hf|]. split; [exact Hc|]. split; [|split].
  - now intros ->.
  - intros df -> Hall. now apply ensure_csv_complete.
  - intros df -> Hmiss. now apply ensure_csv_repair.
Qed.

Lemma index_of_lookup (c : string) (cols : list string) (i : nat) :
  SidebarTools.index_of c cols = Some i -> cols !! i = Some c.
Proof.
  revert i. induction cols as [|c' cols IH]; intros i; simpl; [discriminate|].
  destruct (String.eqb_spec c' c) as [->|Hne].
  - now intros [= <-].
  - destruct (SidebarTools.index_of c cols) as [j|]; [|discriminate].
    intros [= <-]. now apply IH.
Qed.

Lemma index_of_none (c : string) (cols : list string) :
  SidebarTools.index_of c cols = None -> ~ In c cols.
Proof.
  intros Hn Hin. destruct (index_of_in c cols Hin) as (i & Hi & _). congruence.
Qed.

Lemma index_of_app (c c' : string) (cols : list string) :
  SidebarTools.index_of c' (cols ++ [c])
  = match SidebarTools.index_of c' cols with
    | Some j => Some j
    | None => if c =? c' then Some (length cols) else None
    end.
Proof.
  induction cols as [|x cols IH]; simpl.
  - now destruct (c =? c').
  - destruct (x =? c'); [reflexivity|]. rewrite IH.
    destruct (SidebarTools.index_of c' cols); [reflexivity|].
    now destruct (c =? c').
Qed.

(** One assignment [df[c] = v], row by row. *)
Lemma set_column_step (df : DataFrame) (c v : string) :
  exists g : list string -> list string,
    rows (set_column df c v) = map g (rows df)
    /\ forall r, length r = length (columns df) ->
         length (g r) = length (columns (set_column df c v))
         /\ forall c', SidebarTools.cell (columns (set_column df c v)) (g r) c'
                       = if c' =? c then v
                         else SidebarTools.cell (columns df) r c'.
Proof.
  unfold set_column. destruct (SidebarTools.index_of c (columns df)) as [i|] eqn:E.
  - exists (fun r => <[i := v]> r). cbn [rows columns]. split; [reflexivity|].
    intros r Hr. split; [now rewrite length_insert|].
    intros c'. unfold SidebarTools.cell.
    pose proof (index_of_lookup _ _ _ E) as Hi.
    destruct (String.eqb_spec c' c) as [->|Hne].
    + rewrite E, list_lookup_insert_eq; [reflexivity|].
      apply lookup_lt_Some in Hi. lia.
    + destruct (SidebarTools.index_of c' (columns df)) as [j|] eqn:E'; [|reflexivity].
      rewrite list_lookup_insert_ne; [reflexivity|].
      intros ->. apply index_of_lookup in E'. congruence.
  - exists (fun r => r ++ [v]). cbn [rows columns]. split; [reflexivity|].
    intros r Hr. split; [rewrite !length_app; cbn; lia|].
    intros c'. unfold SidebarTools.cell. rewrite index_of_app.
    destruct (SidebarTools.index_of c' (columns df)) as [j|] eqn:E'.
    + pose proof (index_of_lookup _ _ _ E') as Hj.
      destruct (String.eqb_spec c' c) as [->|Hne]; [congruence|].
      rewrite lookup_app_l; [reflexivity|].
      apply lookup_lt_Some in Hj. lia.
    + rewrite String.eqb_sym.
      destruct (String.eqb_spec c' c) as [->|Hne]; [|reflexivity].
      rewrite <- Hr, lookup_app_r, Nat.sub_diag by lia. reflexivity.
Qed.

Lemma fold_set_column_cells (missing : list string) (df : DataFrame) :
  exists g : list string -> list string,
    rows (fold_left (fun d c => set_column d c EmptyString) missing df)
    = map g (rows df)
    /\ forall r, length r = length (columns df) ->
         forall c',
           SidebarTools.cell
             (columns (fold_left (fun d c => set_column d c EmptyString) missing df))
             (g r) c'
           = if existsb (String.eqb c') missing then EmptyString
             else SidebarTools.cell (columns df) r c'.
Proof.
  revert df. induction missing as [|c l IH]; intros df.
  - exists (fun r => r). cbn. split; [now rewrite map_id | reflexivity].
  - cbn [fold_left existsb].
    destruct (set_column_step df c EmptyString) as (g1 & Hrows1 & Hg1).
    destruct (IH (set_column df c EmptyString)) as (g2 & Hrows2 & Hg2).
    exists (fun r => g2 (g1 r)). split.
    + now rewrite Hrows2, Hrows1, map_map.
    + intros r Hr c'. destruct (Hg1 r Hr) as [Hlen Hcell].
      rewrite (Hg2 (g1 r) Hlen c'), Hcell.
      destruct (c' =? c); simpl; [|reflexivity].
      now destruct (existsb (String.eqb c') l).
Qed.

Lemma in_missing (df : DataFrame) (cols : list string) (c : string) :
  In c cols ->
  existsb (String.eqb c)
    (List.filter (fun c => negb (SidebarTools.has_column df c)) cols)
  = negb (SidebarTools.has_column df c).
Proof.
  intros Hin.
  destruct (SidebarTools.has_column df c) eqn:E; cbn [negb].
  - destruct (existsb _ _) eqn:Ex; [|reflexivity].
    apply existsb_exists in Ex as (x & Hx & Hxc). apply String.eqb_eq in Hxc. subst x.
    apply filter_In in Hx as [_ Hx]. rewrite E in Hx. discriminate.
  - apply existsb_exists. exists c. split; [|apply String.eqb_refl].
    apply filter_In. split; [assumption|]. now rewrite E.
Qed.

(** X19: when a file with one cell per column in every row lacks an
    expected column, the frame that [_ensure_csv] returns and writes back has
    the expected header and, row by row, the cell the file had under each
    expected column that it had, and an empty cell under each expected column
    that it lacked; columns outside the expected ones are dropped. *)
Theorem X19_ensure_csv_repair_cells (df : DataFrame) (cols : list string) :
  rectangular df ->
  (exists c, In c cols /\ ~ In c (columns df)) ->
  _ensure_csv (Some df) cols
  = let repaired :=
      mkFrame cols
        (map (fun row =>
                map (fun c => if SidebarTools.has_column df c
                              then SidebarTools.cell (columns df) row c
                              else EmptyString) cols)
             (rows df)) in
    (repaired, Some repaired).
Proof.
  intros Hrect (c & Hc & Hn). cbn [_ensure_csv].
  destruct (List.filter (fun c => negb (SidebarTools.has_column df c)) cols)
    as [|m ms] eqn:Em.
  { exfalso. apply Hn. now apply (proj1 (missing_nil df cols) Em). }
  rewrite <- Em.
  destruct (fold_set_column_cells
              (List.filter (fun c => negb (SidebarTools.has_column df c)) cols) df)
    as (g & Hrows & Hg).
  assert (select_columns
            (fold_left (fun d c => set_column d c EmptyString)
               (List.filter (fun c => negb (SidebarTools.has_column df c)) cols) df)
            cols
          = mkFrame cols
              (map (fun row =>
                      map (fun c => if SidebarTools.has_column df c
                                    then SidebarTools.cell (columns df) row c
                                    else EmptyString) cols)
                   (rows df))) as ->; [|reflexivity].
  unfold select_columns. f_equal. rewrite Hrows, map_map. clear Hrows.
  unfold rectangular in Hrect. revert Hrect. generalize (rows df). intros rws Hrect.
  induction Hrect as [|r rs Hr _ IH]; [reflexivity|].
  cbn [map]. f_equal; [|exact IH].
  apply map_ext_in. intros c' Hc'. rewrite (Hg r Hr c'), (in_missing df cols c' Hc').
  now destruct (SidebarTools.has_column df c').
Qed.

Lemma X19_ensure_csv_repair_cells_witness :
  _ensure_csv
    (Some (mkFrame ["notes"; "title"] [["draft"; "Analyst"]; ["final"; "Editor"]]))
    CSV_COLUMNS
  = (mkFrame CSV_COLUMNS
       [["Analyst"; EmptyString; EmptyString]; ["Editor"; EmptyString; EmptyString]],
     Some (mkFrame CSV_COLUMNS
       [["Analyst"; EmptyString; EmptyString]; ["Editor"; EmptyString; EmptyString]])).
Proof.
  apply (X19_ensure_csv_repair_cells
           (mkFrame ["notes"; "title"] [["draft"; "Analyst"]; ["final"; "Editor"]])
           CSV_COLUMNS).
  - unfold rectangular. cbn. repeat constructor.
  - exists "type". split; [unfold CSV_COLUMNS; simpl; tauto|].
    cbn. intros [H|[H|[]]]; discriminate.
Defined.

(** ** Saving and browsing prompts *)

(** X20: a save goes through exactly when the name as typed is not the empty
    string and the prompt is not blank. It then appends one record, stamped
    with the clock reading, whose name and prompt are the trimmed ones, after
    the records already stored; a name made of blanks only passes the test
    and is stored as the empty name. Otherwise the history is left as it
    was. *)
Theorem X20_save_prompt_outcome (clock : Z) (store : list PromptRecord)
    (prompt_text prompt_name : string) :
  (fst (PromptSaver._display_prompt clock store prompt_text prompt_name)
   = PromptSaver.Saved
   <-> prompt_name <> EmptyString /\ Py.strip prompt_text <> EmptyString)
  /\ (fst (PromptSaver._display_prompt clock store prompt_text prompt_name)
      = PromptSaver.Saved ->
      snd (PromptSaver._display_prompt clock store prompt_text prompt_name)
      = store ++ [mkRecord (Py.strip prompt_name) (_iso_now clock)
                           (Py.strip prompt_text)])
  /\ (fst (PromptSaver._display_prompt clock store prompt_text prompt_name)
      <> PromptSaver.Saved ->
      snd (PromptSaver._display_prompt clock store prompt_text prompt_name) = store).
Proof.
  unfold PromptSaver._display_prompt.
  destruct (Py.truthy prompt_name) eqn:En; cbn [andb].
  - destruct (Py.truthy (Py.strip prompt_text)) eqn:Ep; cbn [fst snd].
    + apply truthy_true in En, Ep. repeat split; try congruence.
    + apply truthy_false in Ep. repeat split; try congruence; try (intros [=]).
      intros [_ H]. congruence.
  - apply truthy_false in En. cbn [fst snd].
    repeat split; try congruence; try (intros [=]).
    intros [H _]. congruence.
Qed.

Lemma X20_save_prompt_outcome_witness :
  PromptSaver._display_prompt clock_before_fall_back [] " Role: You are a poet. " "   "
  = (PromptSaver.Saved,
     [mkRecord EmptyString "2024-11-03T01:30:00-06:00" "Role: You are a poet."]).
Proof.
  pose proof (proj1 (proj2 (X20_save_prompt_outcome clock_before_fall_back []
                              " Role: You are a poet. " "   ")) eq_refl) as H.
  reflexivity.
Defined.

Lemma filter_sublist {A} (p : A -> bool) (l : list A) : sublist (List.filter p l) l.
Proof.
  induction l as [|x l IH]; simpl; [constructor|].
  destruct (p x); now constructor.
Qed.

(** X21: the browser shows every stored record once, and never a record
    before one with a greater timestamp string. With a blank query the search
    box changes nothing; with a query it shows, in the same relative order,
    exactly the stored records whose lower-cased prompt or name matches the
    lower-cased query. *)
Theorem X21_browser_list (contains : string -> string -> bool)
    (store : list PromptRecord) (q : string) :
  PromptBrowser.render store ≡ₚ store
  /\ descending (PromptBrowser.render store)
  /\ (Py.strip q = EmptyString ->
      PromptBrowser.render_search contains store q = PromptBrowser.render store)
  /\ sublist (PromptBrowser.render_search contains store q) (PromptBrowser.render store)
  /\ (Py.strip q <> EmptyString ->
      forall r, In r (PromptBrowser.render_search contains store q)
                <-> In r store
                    /\ (contains (Py.str_lower (prompt r)) (Py.str_lower q)
                        || contains (Py.str_lower (name r)) (Py.str_lower q)) = true).
Proof.
  unfold PromptBrowser.render, PromptBrowser.render_search.
  split; [apply sort_values_desc_perm|]. split; [apply sort_values_desc_descending|].
  split; [now intros ->|]. split.
  - destruct (Py.truthy (Py.strip q)); [apply filter_sublist | reflexivity].
  - intros Hq r. apply truthy_true in Hq. rewrite Hq, filter_In.
    rewrite <- !list_elem_of_In, sort_values_desc_perm. reflexivity.
Qed.

(** ** Timestamps taken under one offset *)


Lemma days_ok_spec (n : nat) (z : Z) :
  days_ok n z = true ->
  forall k, (0 <= k < Z.of_nat n)%Z -> day_ok (z + k) = true.
Proof.
  revert z. induction n as [|n IH]; intros z H k Hk; [lia|].
  simpl in H. destruct (day_ok z) eqn:E; [|discriminate].
  destruct (Z.eq_dec k 0%Z) as [->|Hne].
  - now rewrite Z.add_0_r.
  - replace (z + k)%Z with ((z + 1) + (k - 1))%Z by lia.
    apply IH; [assumption | lia].
Qed.

Lemma civil_period (z k : Z) :
  Datetime.civil_from_days (z + 146097 * k)
  = let '(y, m, d) := Datetime.civil_from_days z in ((y + 400 * k)%Z, m, d).
Proof.
  unfold Datetime.civil_from_days.
  replace (z + 146097 * k + 719468)%Z with (z + 719468 + k * 146097)%Z by lia.
  rewrite Z.div_add by lia.
  set (era := ((z + 719468) / 146097)%Z).
  replace (z + 719468 + k * 146097 - (era + k) * 146097)%Z
    with (z + 719468 - era * 146097)%Z by lia.
  set (doe := (z + 719468 - era * 146097)%Z).
  cbv zeta.
  destruct (_ <=? 2)%Z; f_equal; f_equal; lia.
Qed.

Lemma first_era_ok : days_ok (Z.to_nat 146097) (-719468) = true.
Proof. vm_cast_no_check (eq_refl true). Qed.

Lemma date_key_period (z k : Z) :
  date_key (z + 146097 * k) = (date_key z + 4000000 * k)%Z.
Proof.
  unfold date_key. rewrite civil_period.
  destruct (Datetime.civil_from_days z) as [[y m] d]. lia.
Qed.

(** Every day has a month and a day of the month in range and a date before
    the date of the next day. *)
Lemma day_ok_always (z : Z) : day_ok z = true.
Proof.
  set (e := ((z + 719468) / 146097)%Z).
  set (z0 := (z - 146097 * e)%Z).
  assert (-719468 <= z0 < -719468 + 146097)%Z as Hz0.
  { unfold z0, e. pose proof (Z.div_mod (z + 719468) 146097 ltac:(lia)) as Hdm.
    pose proof (Z.mod_pos_bound (z + 719468) 146097 ltac:(lia)). lia. }
  pose proof (days_ok_spec _ _ first_era_ok (z0 + 719468)%Z ltac:(lia)) as H0.
  replace (-719468 + (z0 + 719468))%Z with z0 in H0 by lia.
  replace z with (z0 + 146097 * e)%Z by (unfold z0; lia).
  unfold day_ok in *.
  replace (z0 + 146097 * e + 1)%Z with ((z0 + 1) + 146097 * e)%Z by lia.
  rewrite !date_key_period, civil_period.
  destruct (Datetime.civil_from_days z0) as [[y m] d].
  apply andb_true_iff in H0 as [H0 Hk]. rewrite H0. cbn [andb].
  apply Z.ltb_lt in Hk. apply Z.ltb_lt. lia.
Qed.

Lemma date_key_next (z : Z) : (date_key z < date_key (z + 1))%Z.
Proof.
  pose proof (day_ok_always z) as H. unfold day_ok in H.
  destruct (Datetime.civil_from_days z) as [[y m] d].
  apply andb_true_iff in H as [_ H]. now apply Z.ltb_lt.
Qed.

Lemma date_key_mono (z1 z2 : Z) : (z1 < z2)%Z -> (date_key z1 < date_key z2)%Z.
Proof.
  intros H. replace z2 with (z1 + 1 + (z2 - z1 - 1))%Z by lia.
  assert (0 <= z2 - z1 - 1)%Z as Hk by lia.
  revert Hk. generalize (z2 - z1 - 1)%Z. intros k Hk.
  pattern k. apply natlike_ind; [| |exact Hk].
  - rewrite Z.add_0_r. apply date_key_next.
  - intros x Hx IH. pose proof (date_key_next (z1 + 1 + x)) as Hn.
    replace (z1 + 1 + Z.succ x)%Z with (z1 + 1 + x + 1)%Z by lia. lia.
Qed.

Lemma civil_fields (z : Z) :
  (-1 <= z < 2932897)%Z ->
  let '(y, m, d) := Datetime.civil_from_days z in
  (1969 <= y <= 9999 /\ 1 <= m <= 12 /\ 1 <= d <= 31)%Z.
Proof.
  intros Hz.
  pose proof (day_ok_always z) as H. unfold day_ok in H.
  assert (date_key (-1)%Z <= date_key z)%Z as Hlo.
  { destruct (Z.eq_dec z (-1)%Z) as [->|Hne]; [lia|].
    apply Z.lt_le_incl, date_key_mono. lia. }
  assert (date_key z <= date_key 2932896%Z)%Z as Hhi.
  { destruct (Z.eq_dec z 2932896%Z) as [->|Hne]; [lia|].
    apply Z.lt_le_incl, date_key_mono. lia. }
  change (date_key (-1)%Z) with 19691231%Z in Hlo.
  change (date_key 2932896%Z) with 99991231%Z in Hhi.
  unfold date_key in Hlo, Hhi.
  destruct (Datetime.civil_from_days z) as [[y m] d].
  apply andb_true_iff in H as [H _].
  repeat (apply andb_true_iff in H as [H ?]).
  apply Z.leb_le in H. repeat match goal with Hx : (_ <=? _)%Z = true |- _ => apply Z.leb_le in Hx end.
  lia.
Qed.


Lemma append_cons (x : ascii) (a b : string) : String x a +:+ b = String x (a +:+ b).
Proof. reflexivity. Qed.

Lemma append_assoc (a b c : string) : (a +:+ b) +:+ c = a +:+ (b +:+ c).
Proof. induction a as [|x a IH]; [reflexivity|]. now rewrite !append_cons, IH. Qed.

Lemma ascii_compare_refl (c : ascii) : Ascii.compare c c = Eq.
Proof. unfold Ascii.compare. apply N.compare_refl. Qed.

Lemma compare_cons (c : ascii) (s t : string) :
  String.compare (String c s) (String c t) = String.compare s t.
Proof. simpl. now rewrite ascii_compare_refl. Qed.

Lemma digit_compare (x y : Z) :
  (0 <= x < 10)%Z -> (0 <= y < 10)%Z ->
  Ascii.compare (Datetime.digit x) (Datetime.digit y) = (x ?= y)%Z.
Proof.
  intros Hx Hy.
  assert (x = 0 \/ x = 1 \/ x = 2 \/ x = 3 \/ x = 4 \/ x = 5 \/ x = 6 \/ x = 7
          \/ x = 8 \/ x = 9)%Z as Ex by lia.
  assert (y = 0 \/ y = 1 \/ y = 2 \/ y = 3 \/ y = 4 \/ y = 5 \/ y = 6 \/ y = 7
          \/ y = 8 \/ y = 9)%Z as Ey by lia.
  clear Hx Hy.
  repeat (destruct Ex as [->|Ex]); try subst x;
    repeat (destruct Ey as [->|Ey]); try subst y; reflexivity.
Qed.

(** Two numbers printed in the same width compare as strings the way they
    compare as numbers, whatever follows them. *)
Lemma compare_zfill (w : nat) (a b : Z) (s t : string) :
  (0 <= a < 10 ^ Z.of_nat w)%Z -> (0 <= b < 10 ^ Z.of_nat w)%Z ->
  String.compare (Datetime.zfill w a +:+ s) (Datetime.zfill w b +:+ t)
  = match (a ?= b)%Z with
    | Eq => String.compare s t
    | Lt => Lt
    | Gt => Gt
    end.
Proof.
  revert a b s t. induction w as [|w IH]; intros a b s t Ha Hb.
  - simpl in *. assert (a = 0%Z) as -> by lia. assert (b = 0%Z) as -> by lia.
    reflexivity.
  - cbn [Datetime.zfill]. rewrite !append_assoc.
    rewrite Nat2Z.inj_succ, Z.pow_succ_r in Ha, Hb by lia.
    pose proof (Z.div_mod a 10 ltac:(lia)) as Hda.
    pose proof (Z.div_mod b 10 ltac:(lia)) as Hdb.
    pose proof (Z.mod_pos_bound a 10 ltac:(lia)) as Hma.
    pose proof (Z.mod_pos_bound b 10 ltac:(lia)) as Hmb.
    rewrite IH by (split; [apply Z.div_pos; lia | apply Z.div_lt_upper_bound; lia]).
    rewrite !append_cons. change (EmptyString +:+ s) with s.
    change (EmptyString +:+ t) with t. cbn [String.compare].
    rewrite (digit_compare _ _ Hma Hmb).
    destruct (Z.compare_spec (a / 10) (b / 10)) as [Hq|Hq|Hq];
      destruct (Z.compare_spec (a mod 10) (b mod 10)) as [Hr|Hr|Hr];
      destruct (Z.compare_spec a b) as [Hab|Hab|Hab];
      try reflexivity; lia.
Qed.


Lemma compare_zfill2 (a b : Z) (s t : string) :
  (0 <= a < 100)%Z -> (0 <= b < 100)%Z ->
  String.compare (Datetime.zfill 2 a +:+ s) (Datetime.zfill 2 b +:+ t)
  = match (a ?= b)%Z with Eq => String.compare s t | Lt => Lt | Gt => Gt end.
Proof. intros Ha Hb. now apply compare_zfill. Qed.

Lemma compare_zfill4 (a b : Z) (s t : string) :
  (0 <= a < 10000)%Z -> (0 <= b < 10000)%Z ->
  String.compare (Datetime.zfill 4 a +:+ s) (Datetime.zfill 4 b +:+ t)
  = match (a ?= b)%Z with Eq => String.compare s t | Lt => Lt | Gt => Gt end.
Proof. intros Ha Hb. now apply compare_zfill. Qed.

Lemma compare_zfill6 (a b : Z) (s t : string) :
  (0 <= a < 1000000)%Z -> (0 <= b < 1000000)%Z ->
  String.compare (Datetime.zfill 6 a +:+ s) (Datetime.zfill 6 b +:+ t)
  = match (a ?= b)%Z with Eq => String.compare s t | Lt => Lt | Gt => Gt end.
Proof. intros Ha Hb. now apply compare_zfill. Qed.

Lemma compare_sep (c : ascii) (s t : string) :
  String.compare (String c EmptyString +:+ s) (String c EmptyString +:+ t)
  = String.compare s t.
Proof. rewrite !append_cons. apply compare_cons. Qed.

(** The fraction and the offset: with the same offset, the smaller
    microsecond gives the smaller string, printed or not. *)
Lemma compare_fraction (us1 us2 off : Z) :
  (0 <= us1 < us2)%Z -> (us2 < 1000000)%Z ->
  String.compare
    ((if (us1 =? 0)%Z then EmptyString else "." +:+ Datetime.zfill 6 us1)
     +:+ Datetime.format_offset off)
    ((if (us2 =? 0)%Z then EmptyString else "." +:+ Datetime.zfill 6 us2)
     +:+ Datetime.format_offset off)
  = Lt.
Proof.
  intros H1 H2.
  destruct (Z.eqb_spec us2 0) as [E2|_]; [lia|].
  destruct (Z.eqb_spec us1 0) as [E1|N1].
  - unfold Datetime.format_offset.
    destruct (off <? 0)%Z; rewrite !append_assoc, !append_cons; reflexivity.
  - rewrite !append_assoc, compare_sep, compare_zfill6 by lia.
    destruct (Z.compare_spec us1 us2); [lia | reflexivity | lia].
Qed.

Ltac field_step lem :=
  rewrite lem by lia;
  match goal with
  | |- context [(?a ?= ?b)%Z] =>
      destruct (Z.compare_spec a b) as [?|?|?]; [subst | reflexivity | exfalso; lia]
  end.

(** With the same offset, the order of the printed stamps is the order of
    the fields they print. *)
Lemma isoformat_compare (d1 d2 : Datetime.datetime) :
  printable d1 -> printable d2 ->
  Datetime.utcoffset d1 = Datetime.utcoffset d2 ->
  (rank d1 < rank d2)%Z ->
  String.compare (Datetime.isoformat d1) (Datetime.isoformat d2) = Lt.
Proof.
  destruct d1 as [y1 m1 dd1 h1 mi1 s1 us1 o1], d2 as [y2 m2 dd2 h2 mi2 s2 us2 o2].
  unfold printable, rank, Datetime.isoformat.
  cbn [Datetime.year Datetime.month Datetime.day Datetime.hour Datetime.minute
       Datetime.second Datetime.microsecond Datetime.utcoffset].
  intros P1 P2 -> Hr.
  field_step compare_zfill4. rewrite compare_sep.
  field_step compare_zfill2. rewrite compare_sep.
  field_step compare_zfill2. rewrite compare_sep.
  field_step compare_zfill2. rewrite compare_sep.
  field_step compare_zfill2. rewrite compare_sep.
  field_step compare_zfill2.
  apply compare_fraction; lia.
Qed.


(** The wall clock that [now] returns, as a number. *)
Lemma now_rank (tz : Z -> Z) (clock : Z) :
  let wall := (clock / 1000000 + tz (clock / 1000000))%Z in
  (-1 <= wall / 86400 < 2932897)%Z ->
  printable (Datetime.now tz clock)
  /\ rank (Datetime.now tz clock)
     = ((date_key (wall / 86400) * 86400 + wall mod 86400) * 1000000
        + clock mod 1000000)%Z
  /\ Datetime.utcoffset (Datetime.now tz clock) = tz (clock / 1000000)%Z.
Proof.
  intros wall Hd. unfold Datetime.now. fold wall.
  pose proof (civil_fields (wall / 86400)%Z Hd) as Hf.
  unfold date_key.
  destruct (Datetime.civil_from_days (wall / 86400)%Z) as [[y m] d].
  unfold printable, rank.
  cbn [Datetime.year Datetime.month Datetime.day Datetime.hour Datetime.minute
       Datetime.second Datetime.microsecond Datetime.utcoffset].
  pose proof (Z.mod_pos_bound wall 86400 ltac:(lia)) as Hsod.
  pose proof (Z.mod_pos_bound clock 1000000 ltac:(lia)) as Hus.
  revert Hsod. generalize (wall mod 86400)%Z. intros sod Hsod.
  revert Hus. generalize (clock mod 1000000)%Z. intros us Hus.
  assert (0 <= sod / 3600 < 24
          /\ 0 <= sod mod 3600 / 60 < 60
          /\ 0 <= sod mod 60 < 60
          /\ (sod / 3600 * 60 + sod mod 3600 / 60) * 60 + sod mod 60 = sod)%Z
    as (Hh & Hmi & Hs & Hsum)
    by (Z.to_euclidean_division_equations; lia).
  revert Hh Hmi Hs Hsum.
  generalize (sod / 3600)%Z (sod mod 3600 / 60)%Z (sod mod 60)%Z.
  intros h mi s Hh Hmi Hs Hsum.
  split; [lia|]. split; [lia | reflexivity].
Qed.

Lemma TZ_values (utc : Z) : TZ utc = (-21600)%Z \/ TZ utc = (-25200)%Z.
Proof.
  unfold TZ, Datetime.America_Denver.
  destruct (Datetime.civil_from_days (utc / 86400)) as [[y m] d].
  destruct (_ && _); [now left | now right].
Qed.

(** Stamps taken under one offset: the later the clock reading, the greater
    the string. *)
Lemma iso_now_increasing (c1 c2 : Z) :
  (0 <= c1)%Z -> (c1 < c2)%Z -> (c2 < clock_limit)%Z ->
  TZ (c1 / 1000000) = TZ (c2 / 1000000) ->
  String.compare (_iso_now c1) (_iso_now c2) = Lt.
Proof.
  unfold clock_limit. intros H0 H12 Hlim Hoff. unfold _iso_now.
  set (off := TZ (c2 / 1000000)%Z) in *.
  assert (off = (-21600)%Z \/ off = (-25200)%Z) as Hv by apply TZ_values.
  set (w1 := (c1 / 1000000 + off)%Z).
  set (w2 := (c2 / 1000000 + off)%Z).
  assert (-1 <= w1 / 86400 < 2932897)%Z as Hd1
      by (unfold w1; Z.to_euclidean_division_equations; lia).
  assert (-1 <= w2 / 86400 < 2932897)%Z as Hd2
      by (unfold w2; Z.to_euclidean_division_equations; lia).
  pose proof (now_rank TZ c1) as N1. cbv zeta in N1. rewrite Hoff in N1. fold w1 in N1.
  pose proof (now_rank TZ c2) as N2. cbv zeta in N2. fold off w2 in N2.
  destruct (N1 Hd1) as (P1 & R1 & O1), (N2 Hd2) as (P2 & R2 & O2).
  apply isoformat_compare; [assumption | assumption | congruence |].
  rewrite R1, R2.
  assert (w1 / 86400 <= w2 / 86400)%Z as Hle
      by (unfold w1, w2; Z.to_euclidean_division_equations; lia).
  destruct (Z.eq_dec (w1 / 86400)%Z (w2 / 86400)%Z) as [E|N].
  - rewrite E. unfold w1, w2 in *. Z.to_euclidean_division_equations. lia.
  - pose proof (date_key_mono (w1 / 86400)%Z (w2 / 86400)%Z ltac:(lia)) as Hk.
    pose proof (Z.mod_pos_bound w1 86400 ltac:(lia)).
    pose proof (Z.mod_pos_bound w2 86400 ltac:(lia)).
    pose proof (Z.mod_pos_bound c1 1000000 ltac:(lia)).
    pose proof (Z.mod_pos_bound c2 1000000 ltac:(lia)).
    lia.
Qed.

Lemma iso_now_str_lt (c1 c2 : Z) :
  (0 <= c1)%Z -> (c1 < c2)%Z -> (c2 < clock_limit)%Z ->
  TZ (c1 / 1000000) = TZ (c2 / 1000000) ->
  PromptBrowser.str_lt (_iso_now c1) (_iso_now c2) = true.
Proof.
  intros H0 H12 Hlim Hoff. unfold PromptBrowser.str_lt.
  now rewrite (iso_now_increasing c1 c2 H0 H12 Hlim Hoff).
Qed.

(** X22: of two stamps taken by [_iso_now] before the year 10000, at clock
    readings at which the zone observes the same offset, the one taken later
    is the greater string, whether or not their microseconds are printed. *)
Theorem X22_later_stamp_is_greater (c1 c2 : Z) :
  (0 <= c1)%Z -> (c1 < c2)%Z -> (c2 < clock_limit)%Z ->
  TZ (c1 / 1000000) = TZ (c2 / 1000000) ->
  PromptBrowser.str_lt (_iso_now c1) (_iso_now c2) = true.
Proof.
  exact (iso_now_str_lt c1 c2).
Qed.

Lemma X22_later_stamp_is_greater_witness :
  PromptBrowser.str_lt "2024-07-03T03:46:41-06:00" "2024-07-03T03:46:41.500000-06:00"
  = true.
Proof.
  exact (X22_later_stamp_is_greater 1720000001000000 1720000001500000
           ltac:(lia) ltac:(lia) ltac:(unfold clock_limit; lia) eq_refl).
Defined.

Lemma saved_at_records (saves : list (Z * string * string)) :
  saved_at saves
  = map (fun s => mkRecord (snd (fst s)) (_iso_now (fst (fst s))) (snd s)) saves.
Proof.
  unfold saved_at.
  assert (forall acc,
             fold_left (fun store s =>
                          DataManager.save_prompt (fst (fst s)) store (snd (fst s)) (snd s))
                       saves acc
             = acc ++ map (fun s => mkRecord (snd (fst s)) (_iso_now (fst (fst s))) (snd s))
                      saves) as H; [|apply (H [])].
  induction saves as [|s saves IH]; intros acc; cbn [fold_left map].
  - now rewrite app_nil_r.
  - rewrite IH. unfold DataManager.save_prompt, _safe_concat.
    now rewrite <- app_assoc.
Qed.

Lemma insert_desc_last (r : PromptRecord) (l : list PromptRecord) :
  Forall (fun r' => PromptBrowser.str_lt (timestamp r) (timestamp r') = true) l ->
  PromptBrowser.insert_desc r l = l ++ [r].
Proof.
  induction 1 as [|r' l Hr' _ IH]; [reflexivity|].
  cbn [PromptBrowser.insert_desc]. rewrite Hr'. cbn [app]. now rewrite IH.
Qed.

(** X23: when every save of a history was made before the year 10000, later
    than the save before it, and under one and the same offset, the browser
    lists the records in the reverse of the order in which they were saved:
    newest first. *)
Theorem X23_one_offset_newest_first (saves : list (Z * string * string)) :
  one_offset_increasing saves ->
  PromptBrowser.render (saved_at saves) = rev (saved_at saves).
Proof.
  intros [Hord Hrange]. rewrite saved_at_records.
  unfold PromptBrowser.render, PromptBrowser.sort_values_desc.
  induction Hord as [|s saves Hs Hord IH]; [reflexivity|].
  apply Forall_cons in Hrange as [Hs0 Hrange].
  cbn [map fold_right rev]. rewrite (IH Hrange).
  apply insert_desc_last. apply Forall_forall. intros r' Hin.
  apply list_elem_of_In, in_rev, in_map_iff in Hin as (s' & <- & Hin').
  cbn [timestamp].
  rewrite Forall_forall in Hs, Hrange.
  apply list_elem_of_In in Hin'.
  destruct (Hs s' Hin') as [Hlt Hoff]. specialize (Hrange s' Hin').
  apply iso_now_str_lt; [lia | assumption | lia | assumption].
Qed.

Lemma X23_one_offset_newest_first_witness :
  map name
    (PromptBrowser.render
       (saved_at [(1720000001000000%Z, "first", "A");
                  (1720000001500000%Z, "second", "B");
                  (1720000002000000%Z, "third", "C")]))
  = ["third"; "second"; "first"].
Proof.
  rewrite (X23_one_offset_newest_first
             [(1720000001000000%Z, "first", "A");
              (1720000001500000%Z, "second", "B");
              (1720000002000000%Z, "third", "C")]).
  - reflexivity.
  - unfold one_offset_increasing, clock_limit. split.
    + repeat constructor; cbn; lia.
    + repeat constructor; cbn; lia.
Defined.

(** X25: the prompt of a selection in which every section is skipped cannot
    be saved when recursive feedback is off, whatever the name: the history
    stays as it was. With recursive feedback on it can, and what is stored is
    the instruction without the two newlines in front of it. *)
Theorem X25_saving_an_empty_selection (clock : Z) (store : list PromptRecord)
    (df : Table) (selections : list (string * SectionData)) (prompt_name : string) :
  all_skipped selections ->
  PromptSaver._display_prompt clock store (_generate_prompt selections df false)
    prompt_name
  = (PromptSaver.NameAndPromptNeeded, store)
  /\ (prompt_name <> EmptyString ->
      PromptSaver._display_prompt clock store (_generate_prompt selections df true)
        prompt_name
      = (PromptSaver.Saved,
         store ++ [mkRecord (Py.strip prompt_name) (_iso_now clock)
           "Before you provide the response, ask any clarifying questions that would improve the output. If you already have enough info, proceed."])).
Proof.
  intros Hs. rewrite !generate_prompt_blocks, (blocks_all_skipped df _ Hs).
  unfold PromptSaver._display_prompt. split.
  - cbn. now rewrite andb_false_r.
  - intros Hn. apply truthy_true in Hn. rewrite Hn. reflexivity.
Qed.

Lemma X25_saving_an_empty_selection_witness :
  PromptSaver._display_prompt clock_before_fall_back []
    (_generate_prompt
       (render_selections (mkData (SelStr "Skip") EmptyString)
          (mkData (SelStr "Skip") EmptyString) (mkData (SelList ["Skip"]) EmptyString)
          (mkData (SelList ["Skip"]) EmptyString) (mkData (SelList ["Skip"]) EmptyString)
          (mkData (SelStr "Skip") EmptyString))
       example_elements false)
    "Empty"
  = (PromptSaver.NameAndPromptNeeded, []).
Proof.
  apply (X25_saving_an_empty_selection clock_before_fall_back [] example_elements).
  unfold all_skipped, render_selections. repeat constructor.
Defined.

(** * The code on loaded frames *)


(** ** Loaded frames *)


Lemma written_text_frame (t : Table) : written (text_frame t) = t.
Proof.
  unfold written, text_frame. rewrite map_map. rewrite <- (map_id t) at 2.
  apply map_ext. now intros [].
Qed.







(** C10, at the failing input: the file holds the row Blank,role, with an
    empty content; [pd.read_csv] loads that content as a missing value and
    [str(...)] prints it as "nan". With the role "Blank" chosen and every
    other section skipped the prompt is "Role: nan", and a multi-choice
    section in which "Blank" is chosen gets the item "nan". *)
Theorem C10_missing_content_prints_nan :
  LoadedPromptBuilder.get_content_by_title blank_content_frame "Blank" = Some "nan"
  /\ LoadedPromptBuilder._generate_prompt
       (render_selections (mkData (SelStr "Blank") EmptyString)
          (mkData (SelStr "Skip") EmptyString) (mkData (SelList ["Skip"]) EmptyString)
          (mkData (SelList ["Skip"]) EmptyString) (mkData (SelList ["Skip"]) EmptyString)
          (mkData (SelStr "Skip") EmptyString))
       blank_content_frame false
     = "Role: nan"
  /\ LoadedPromptBuilder.process_section blank_content_frame [] "audience"
       (mkData (SelList ["Blank"]) EmptyString)
     = ["Target Audience:" +:+ Py.LF +:+ "nan"].
Proof. repeat split; reflexivity. Qed.


(** ** Adding to a loaded frame *)

Lemma loaded_exists_text (df : LoadedTable) (t ty : string) :
  text_keys df ->
  LoadedElementCreator.already_exists df t ty
  = ElementCreator.already_exists (written df) t ty.
Proof.
  unfold LoadedElementCreator.already_exists, ElementCreator.already_exists, written.
  induction 1 as [|r df (t' & ty' & Ht & Hty) _ IH]; [reflexivity|].
  cbn [existsb map]. rewrite IH, Ht, Hty. reflexivity.
Qed.

Lemma loaded_exists_iff (df : LoadedTable) (t ty : string) :
  LoadedElementCreator.already_exists df t ty = true
  <-> exists r, In r df /\ title_cell r = CStr t /\ type_cell r = CStr ty.
Proof.
  unfold LoadedElementCreator.already_exists. rewrite existsb_exists.
  split; intros (r & Hin & H); exists r; split; try assumption.
  - apply andb_true_iff in H as [H1 H2].
    destruct (title_cell r) as [s| |]; try discriminate.
    destruct (type_cell r) as [s'| |]; try discriminate.
    cbn in H1, H2. apply String.eqb_eq in H1, H2. now subst.
  - destruct H as [-> ->]. cbn. now rewrite !String.eqb_refl.
Qed.

Lemma written_app (df df' : LoadedTable) : written (df ++ df') = written df ++ written df'.
Proof. unfold written. apply map_app. Qed.

(** C3, as the code has it: from a table in which no two elements share
    title and type, an add that succeeds with a title typed without
    surrounding whitespace, on a loaded frame whose title and type cells are
    all strings, and an update that succeeds with a (trimmed title, type)
    pair that no other row holds, give a table in which again no two elements
    share title and type. *)
Theorem C3_text_add_and_checked_update_keep_unique :
  (forall (df df' : LoadedTable) (element_type title_in content_in : string),
      text_keys df ->
      unique_title_type (written df) ->
      Py.strip title_in = title_in ->
      LoadedElementCreator.render df element_type title_in content_in
      = (ElementCreator.Added, Some df') ->
      unique_title_type (written df'))
  /\ (forall (df df' : Table) (i : nat) (new_title new_type new_content : string),
      unique_title_type df ->
      (forall j e, j <> i -> df !! j = Some e ->
                   ~ (title e = Py.strip new_title /\ type e = new_type)) ->
      ElementEditor._render_element df i new_title new_type new_content
      = (ElementEditor.Updated, df') ->
      unique_title_type df').
Proof.
  split.
  - intros df df' ty t c Htext Hu Hstrip. unfold LoadedElementCreator.render.
    destruct (negb (Py.truthy (Py.strip t))); [discriminate|].
    destruct (negb (Py.truthy (Py.strip c))); [discriminate|].
    destruct (LoadedElementCreator.already_exists df t ty) eqn:Hex; [discriminate|].
    intros [= <-]. unfold _safe_concat.
    rewrite written_app. apply unique_append; [assumption|].
    cbn. rewrite Hstrip. apply already_exists_false.
    now rewrite <- loaded_exists_text.
  - intros df df' i nt nty nc Hu Hfresh. unfold ElementEditor._render_element.
    destruct (negb (Py.truthy (Py.strip nt))); [discriminate|].
    destruct (negb (Py.truthy (Py.strip nc))); [discriminate|].
    intros [= <-]. unfold ElementEditor.set_row.
    destruct (Nat.ltb_spec i (length df)) as [Hlt|Hge].
    + now apply unique_insert.
    + apply unique_append; [assumption|]. simpl. intros j e' Hj.
      apply (Hfresh j e'); [|assumption]. apply lookup_lt_Some in Hj. lia.
Qed.

Lemma C3_text_add_and_checked_update_keep_unique_witness :
  unique_title_type (two_roles ++ [mkElement "Analyst" "goal" "Analyse the data."])
  /\ unique_title_type (<[1 := mkElement "Reviewer" "role" "You review text."]> two_roles).
Proof.
  destruct C3_text_add_and_checked_update_keep_unique as [Hadd Hupd].
  split.
  - assert (text_keys (text_frame two_roles)) as Htext
        by (unfold text_keys, text_frame, two_roles; repeat constructor; cbn; eauto).
    assert (unique_title_type (written (text_frame two_roles))) as Hu
        by (rewrite written_text_frame; exact unique_two_roles).
    exact (Hadd (text_frame two_roles) _ "goal" "Analyst" " Analyse the data. "
             Htext Hu eq_refl eq_refl).
  - apply (Hupd two_roles _ 1 " Reviewer" "role" "You review text." unique_two_roles);
      [|reflexivity].
    intros j e Hne Hj [Ht _].
    destruct j as [|[|j]]; simpl in Hj; [|congruence|discriminate].
    injection Hj as <-. discriminate.
Defined.

(** Where a title column was read as numbers the check finds nothing: the
    title 123 is added to a file that has it, and the file then holds the
    pair of title and type twice. *)
Lemma loaded_add_numeric_title_duplicates :
  unique_title_type (written numeric_title_frame)
  /\ LoadedElementCreator.render numeric_title_frame "role" "123" "You count twice."
     = (ElementCreator.Added,
        Some (numeric_title_frame
              ++ [mkRow (CStr "123") (CStr "role") (CStr "You count twice.")]))
  /\ ~ unique_title_type
         (written (numeric_title_frame
                   ++ [mkRow (CStr "123") (CStr "role") (CStr "You count twice.")])).
Proof.
  split; [|split; [reflexivity|]].
  - intros i j ei ej Hi Hj _ _.
    destruct i as [|i], j as [|j]; simpl in *; try reflexivity; discriminate.
  - intros Hu. specialize (Hu 0 1 _ _ eq_refl eq_refl eq_refl eq_refl). discriminate.
Qed.

(** X9: on the frame that the load returned, an add succeeds exactly when
    the trimmed title and the trimmed content are not empty and no row has,
    as strings, the title as typed in its title cell and the type in its type
    cell. It then hands to the save the loaded rows followed by one row of
    strings: the trimmed title, the type and the trimmed content. In every
    other case nothing is written. *)
Theorem X9_add_outcome (df : LoadedTable) (ty t c : string) :
  (fst (LoadedElementCreator.render df ty t c) = ElementCreator.Added
   <-> Py.strip t <> EmptyString /\ Py.strip c <> EmptyString
       /\ ~ exists r, In r df /\ title_cell r = CStr t /\ type_cell r = CStr ty)
  /\ (fst (LoadedElementCreator.render df ty t c) = ElementCreator.Added ->
      snd (LoadedElementCreator.render df ty t c)
      = Some (df ++ [mkRow (CStr (Py.strip t)) (CStr ty) (CStr (Py.strip c))]))
  /\ (fst (LoadedElementCreator.render df ty t c) <> ElementCreator.Added ->
      snd (LoadedElementCreator.render df ty t c) = None).
Proof.
  rewrite <- loaded_exists_iff. unfold LoadedElementCreator.render.
  destruct (Py.truthy (Py.strip t)) eqn:Et; cbn [negb].
  2:{ apply truthy_false in Et. cbn.
      repeat split; try congruence; try tauto; try (intros [=]). }
  destruct (Py.truthy (Py.strip c)) eqn:Ec; cbn [negb].
  2:{ apply truthy_false in Ec. cbn.
      repeat split; try congruence; try tauto; try (intros [=]). }
  apply truthy_true in Et, Ec.
  destruct (LoadedElementCreator.already_exists df t ty) eqn:Ex; cbn.
  - repeat split; try congruence; try tauto; try (intros [=]).
  - repeat split; try congruence; try tauto.
Qed.

Lemma X9_add_outcome_witness :
  snd (LoadedElementCreator.render blank_content_frame "goal" " Ship it "
         "Ship the feature.")
  = Some [mkRow (CStr "Blank") (CStr "role") CNaN;
          mkRow (CStr "Ship it") (CStr "goal") (CStr "Ship the feature.")].
Proof.
  exact (proj1 (proj2 (X9_add_outcome blank_content_frame "goal" " Ship it "
                         "Ship the feature.")) eq_refl).
Defined.

(** ** The section widgets *)

(** X8: [_create_section] returns for every widget state but one: a
    single-choice section in which "Write your own" is chosen raises. When it
    returns, the selection is passed on as it is, and the custom text is the
    trimmed free text when "Write your own" is among the items of a
    multi-choice selection and the empty string in every other case: a
    single-choice section never hands a custom text to the assembler. *)
Theorem X8_create_section_returns_or_raises (multi_select : bool)
    (chosen : Selected) (custom_widget : string) :
  (SectionWidgets._create_section multi_select chosen custom_widget = None
   <-> multi_select = false /\ chosen = SelStr "Write your own")
  /\ (forall d,
        SectionWidgets._create_section multi_select chosen custom_widget = Some d ->
        d = PromptBuilder._create_section multi_select chosen custom_widget
        /\ selected d = chosen
        /\ Py.strip (custom d) = custom d
        /\ (custom d <> EmptyString ->
            multi_select = true
            /\ exists l, chosen = SelList l /\ In "Write your own" l
                         /\ custom d = Py.strip custom_widget)
        /\ (forall l, multi_select = true -> chosen = SelList l ->
                      In "Write your own" l -> custom d = Py.strip custom_widget)).
Proof.
  assert (forall l, existsb (String.eqb "Write your own") l = true
                    <-> In "Write your own" l) as Hin.
  { intros l. rewrite existsb_exists. split.
    - intros (x & Hx & E). apply String.eqb_eq in E. now subst.
    - intros H. exists "Write your own". split; [assumption | reflexivity]. }
  unfold SectionWidgets._create_section, PromptBuilder._create_section.
  destruct multi_select, chosen as [s|l]; cbn [selected custom].
  - split; [split; [discriminate | intros [[=] _]]|].
    intros d [= <-]. cbn.
    repeat split; try congruence; try (intros; discriminate).
  - destruct (existsb (String.eqb "Write your own") l) eqn:E.
    + split; [split; [discriminate | intros [[=] _]]|].
      intros d [= <-]. cbn [selected custom].
      repeat split; try apply strip_idempotent; try congruence.
      exists l. repeat split. now apply Hin.
    + split; [split; [discriminate | intros [[=] _]]|].
      intros d [= <-]. cbn [selected custom].
      change (Py.strip EmptyString) with EmptyString.
      repeat split; try congruence.
      intros l' _ [= <-] Hwyo. apply Hin in Hwyo. congruence.
  - destruct (String.eqb_spec s "Write your own") as [->|Hne].
    + split; [tauto|]. intros d [=].
    + split; [split; [discriminate | intros [_ [= ->]]; contradiction]|].
      intros d [= <-]. cbn.
      repeat split; try congruence; try (intros; discriminate).
  - split; [split; [discriminate | intros [_ [=]]]|].
    intros d [= <-]. cbn.
    repeat split; try congruence; try (intros; discriminate).
Qed.

Lemma X8_create_section_returns_or_raises_witness :
  SectionWidgets._create_section false (SelStr "Write your own") "You are a poet." = None
  /\ SectionWidgets._create_section true (SelList ["Developers"; "Write your own"])
       " and hobbyists "
     = Some (mkData (SelList ["Developers"; "Write your own"]) "and hobbyists").
Proof.
  split.
  - apply (proj1 (X8_create_section_returns_or_raises false (SelStr "Write your own")
                    "You are a poet.")).
    now split.
  - reflexivity.
Defined.
